(** * bank_account.py: the [BankAccount] class, embedded and verified

    The Python class is embedded as functions in a small exception-and-state
    monad over a store of account objects.

    Modelling decisions, all local to this file:
    - Python numbers ([int], [bool], [float]) are exact: an [int] is a [Z],
      a [float] is a rational [Q].  Rounding, overflow, infinities and NaN of
      IEEE-754 doubles are outside this embedding: what is proved on it holds
      of the code in exact arithmetic on finite numbers.  Numeric equality of
      floats is [Qeq] (written [==]), as Python's [==] is equality of values.
      A second embedding, [Double], takes the numbers as binary64 doubles and
      the exception classes as formatting their arguments; the code is run on
      it where the two part.
    - Every [BankAccount] object lives at a location of the store; a
      reference is the location, so two references to one object alias.
    - A raised exception carries the store as it is at the time of the raise:
      whatever was mutated before the raise stays mutated.
    - Strings are sequences of 8-bit characters, read as the code points
      U+0000 to U+00FF. *)

From Stdlib Require Import ZArith QArith Qabs String Ascii Bool Lia Lqa.
From Stdlib Require PrimFloat SpecFloat FloatOps.
From stdpp Require Import base tactics option list.

Local Open Scope Z_scope.
Local Open Scope string_scope.

(** ** Python values *)

(** A location of the store: the identity of one [BankAccount] object. *)
Definition loc := nat.
Bind Scope nat_scope with loc.

(** The values a caller can pass to the methods of the class. *)
Inductive value : Type :=
| VNone
| VBool (b : bool)
| VInt (n : Z)
| VFloat (x : Q)
| VStr (s : string)
| VAccount (l : loc).

(** [isinstance(v, (int, float))]; [bool] is a subclass of [int]. *)
Definition is_number (v : value) : bool :=
  match v with
  | VBool _ | VInt _ | VFloat _ => true
  | _ => false
  end.

(** The numeric value of a number, as arithmetic and comparisons see it. *)
Definition num (v : value) : Q :=
  match v with
  | VBool true => 1
  | VBool false => 0
  | VInt n => inject_Z n
  | VFloat x => x
  | _ => 0
  end.

(** [a < b], [a <= b] and [a > b] on numbers. *)
Definition lt (a b : Q) : bool := negb (Qle_bool b a).
Definition le (a b : Q) : bool := Qle_bool a b.
Definition gt (a b : Q) : bool := lt b a.

(** [v == "active"]-style comparison of a value with a string literal. *)
Definition eq_str (v : value) (s : string) : bool :=
  match v with
  | VStr t => String.eqb t s
  | _ => false
  end.

(** ** Exceptions *)

(** What an [InvalidAmountError] was built from: the offending value, or the
    message of the constructor and of the balance setter. *)
Inductive amount_info : Type :=
| Offending (v : value)
| BalanceCannotBeNegative (v : value).

(** The messages of [InvalidAccountError]. *)
Inductive account_info : Type :=
| StatusMustBeActiveOrInactive
| NotActiveForTransactions (account_number : Z)
| TargetMustBeBankAccount
| FailedToParse.

(** [BankAccountError] has three subclasses; [ValueError] is what tuple
    unpacking and [float] raise.  [cause] is the [__cause__] set by
    [raise ... from exc].  [DanglingReference] is not a Python exception: it
    is the outcome of a method called through a location that holds no
    object, which no Python program can do. *)
#[warnings="-register-all"]
Inductive exn : Type :=
| InsufficientFundsError (balance amount : Q)
| InvalidAmountError (info : amount_info)
| InvalidAccountError (info : account_info) (cause : option exn)
| ValueError
| DanglingReference.

(** [isinstance(e, BankAccountError)]. *)
Definition is_BankAccountError (e : exn) : bool :=
  match e with
  | InsufficientFundsError _ _ | InvalidAmountError _
  | InvalidAccountError _ _ => true
  | _ => false
  end.

Definition is_InvalidAmountError (e : exn) : bool :=
  match e with InvalidAmountError _ => true | _ => false end.

Definition is_InvalidAccountError (e : exn) : bool :=
  match e with InvalidAccountError _ _ => true | _ => false end.

(** ** Objects and the store *)

(** One entry of [_transactions]:
    [(action, amount, resulting_balance[, other_account_number])]. *)
Record txn : Type := Txn {
  action : string;
  amount : value;
  resulting_balance : Q;
  other_account_number : option Z
}.

(** The instance attributes of a [BankAccount]. *)
Record account : Type := Account {
  _account_number : Z;
  _account_holder : string;
  _balance : Q;
  _status : string;
  _transactions : list txn
}.

(** The class attribute [_account_counter] and the objects created so far. *)
Record state : Type := State {
  _account_counter : Z;
  heap : list account
}.

(** A fresh process: the counter as the class body sets it, no object. *)
Definition initial_state : state := State 1000 [].

(** ** The monad: a computation returns or raises, in a final store *)

Inductive outcome (A : Type) : Type :=
| Return (a : A) (s : state)
| Raise (e : exn) (s : state).
Arguments Return {A} a s.
Arguments Raise {A} e s.

Definition M (A : Type) : Type := state -> outcome A.

Definition ret {A} (a : A) : M A := fun s => Return a s.

Definition bind {A B} (m : M A) (k : A -> M B) : M B :=
  fun s => match m s with
           | Return a s' => k a s'
           | Raise e s' => Raise e s'
           end.

Definition raise {A} (e : exn) : M A := fun s => Raise e s.

(** [try: m except Exception as exc: h exc]. *)
Definition try_except {A} (m : M A) (h : exn -> M A) : M A :=
  fun s => match m s with
           | Return a s' => Return a s'
           | Raise e s' => h e s'
           end.

Declare Scope py_scope.
Delimit Scope py_scope with py.
Notation "x <- m ;; k" := (bind m (fun x => k))
  (at level 100, m at next level, right associativity) : py_scope.
Notation "m ;; k" := (bind m (fun _ => k))
  (at level 100, right associativity) : py_scope.
Local Open Scope py_scope.

(** The store after a computation, however it ended. *)
Definition final {A} (o : outcome A) : state :=
  match o with
  | Return _ s => s
  | Raise _ s => s
  end.

(** Reading and writing the object behind a reference. *)
Definition read (self : loc) : M account :=
  fun s => match heap s !! self with
           | Some a => Return a s
           | None => Raise DanglingReference s
           end.

Definition store (self : loc) (a : account) (s : state) : state :=
  State (_account_counter s) (<[self := a]> (heap s)).

Definition write (self : loc) (a : account) : M unit :=
  fun s => Return tt (store self a s).

(** One attribute of an object replaced, the others kept. *)
Definition with_balance (a : account) (b : Q) : account :=
  Account (_account_number a) (_account_holder a) b
          (_status a) (_transactions a).

Definition with_status (a : account) (v : string) : account :=
  Account (_account_number a) (_account_holder a) (_balance a)
          v (_transactions a).

Definition with_appended (a : account) (t : txn) : account :=
  Account (_account_number a) (_account_holder a) (_balance a)
          (_status a) (_transactions a ++ [t]).

(** Attribute assignments [self._balance = b], [self._status = v] and
    [self._transactions.append(t)]. *)
Definition set_balance (self : loc) (b : Q) : M unit :=
  a <- read self ;; write self (with_balance a b).

Definition set_status (self : loc) (v : string) : M unit :=
  a <- read self ;; write self (with_status a v).

Definition append_transaction (self : loc) (t : txn) : M unit :=
  a <- read self ;; write self (with_appended a t).

(** ** The string builtins used by [from_string] *)

(** [s.split(sep)] for a one-character separator: never an empty list. *)
Fixpoint split (sep : ascii) (s : string) : list string :=
  match s with
  | EmptyString => [EmptyString]
  | String c r =>
      if Ascii.eqb c sep then EmptyString :: split sep r
      else match split sep r with
           | w :: ws => String c w :: ws
           | [] => [String c EmptyString]
           end
  end.

(** [c.isspace()] for the code points below 256. *)
Definition isspace (c : ascii) : bool :=
  let n := nat_of_ascii c in
  ((9 <=? n) && (n <=? 13) || (28 <=? n) && (n <=? 32)
   || (n =? 133) || (n =? 160))%nat.

Fixpoint lstrip (s : string) : string :=
  match s with
  | EmptyString => EmptyString
  | String c r => if isspace c then lstrip r else s
  end.

Fixpoint rstrip (s : string) : string :=
  match s with
  | EmptyString => EmptyString
  | String c r =>
      match rstrip r with
      | EmptyString => if isspace c then EmptyString else String c EmptyString
      | r' => String c r'
      end
  end.

(** [s.strip()]. *)
Definition strip (s : string) : string := rstrip (lstrip s).

(** ** The class *)

Module BankAccount.

(** [__init__]: the three checks, then the counter, then the attributes and
    the creation record.  The new object is stored at the next free
    location, which is returned as the reference to it. *)
Definition __init__ (account_holder : string)
    (initial_balance status : value) : M loc :=
  if negb (is_number initial_balance) then
    raise (InvalidAmountError (Offending initial_balance))
  else if lt (num initial_balance) 0 then
    raise (InvalidAmountError (BalanceCannotBeNegative initial_balance))
  else if negb (eq_str status "active" || eq_str status "inactive") then
    raise (InvalidAccountError StatusMustBeActiveOrInactive None)
  else fun s =>
    let counter := _account_counter s + 1 in
    let b := num initial_balance in
    let st := match status with VStr t => t | _ => EmptyString end in
    let obj := Account counter account_holder b st [] in
    let obj := with_appended obj (Txn "Account created" (VFloat b) b None) in
    Return (length (heap s)) (State counter (heap s ++ [obj])).

(** The property getters. *)
Definition balance (self : loc) : M Q :=
  a <- read self ;; ret (_balance a).

Definition account_holder (self : loc) : M string :=
  a <- read self ;; ret (_account_holder a).

Definition account_number (self : loc) : M Z :=
  a <- read self ;; ret (_account_number a).

Definition status (self : loc) : M string :=
  a <- read self ;; ret (_status a).

(** The [balance] setter. *)
Definition balance_setter (self : loc) (new_value : value) : M unit :=
  if negb (is_number new_value) then
    raise (InvalidAmountError (Offending new_value))
  else if lt (num new_value) 0 then
    raise (InvalidAmountError (BalanceCannotBeNegative new_value))
  else set_balance self (num new_value).

(** The [status] setter. *)
Definition status_setter (self : loc) (v : value) : M unit :=
  if negb (eq_str v "active" || eq_str v "inactive") then
    raise (InvalidAccountError StatusMustBeActiveOrInactive None)
  else set_status self (match v with VStr t => t | _ => EmptyString end).

(** [from_balance]: the constructor with the default status. *)
Definition from_balance (account_holder : string)
    (initial_balance : value) : M loc :=
  __init__ account_holder initial_balance (VStr "active").

(** [_validate_amount]. *)
Definition _validate_amount (amount : value) : M bool :=
  if negb (is_number amount) then
    raise (InvalidAmountError (Offending amount))
  else if le (num amount) 0 then
    raise (InvalidAmountError (Offending amount))
  else ret true.

(** [_ensure_active]. *)
Definition _ensure_active (self : loc) : M unit :=
  a <- read self ;;
  if negb (String.eqb (_status a) "active") then
    raise (InvalidAccountError
             (NotActiveForTransactions (_account_number a)) None)
  else ret tt.

(** [deposit]. *)
Definition deposit (self : loc) (amount : value) : M Q :=
  _ensure_active self ;;
  _validate_amount amount ;;
  b <- balance self ;;
  set_balance self (b + num amount) ;;
  b <- balance self ;;
  append_transaction self (Txn "Deposit" amount b None) ;;
  balance self.

(** [withdraw]. *)
Definition withdraw (self : loc) (amount : value) : M Q :=
  _ensure_active self ;;
  _validate_amount amount ;;
  b <- balance self ;;
  if gt (num amount) b then
    raise (InsufficientFundsError b (num amount))
  else
    set_balance self (b - num amount) ;;
    b <- balance self ;;
    append_transaction self (Txn "Withdraw" amount b None) ;;
    balance self.

(** [transfer]. *)
Definition transfer (self : loc) (amount : value)
    (target_account : value) : M bool :=
  _ensure_active self ;;
  match target_account with
  | VAccount target =>
      _validate_amount amount ;;
      withdraw self amount ;;
      deposit target amount ;;
      b <- balance self ;;
      n <- account_number target ;;
      append_transaction self (Txn "Transfer to" amount b (Some n)) ;;
      b <- balance target ;;
      n <- account_number self ;;
      append_transaction target (Txn "Transfer from" amount b (Some n)) ;;
      ret true
  | _ => raise (InvalidAccountError TargetMustBeBankAccount None)
  end.

(** [get_transaction_history]: a copy of the list. *)
Definition get_transaction_history (self : loc) : M (list txn) :=
  a <- read self ;; ret (_transactions a).

(** [from_string].  The builtin [float] applied to a string is a parameter
    of the development: [None] is its [ValueError]. *)
Section FromString.

Variable float : string -> option Q.

Definition from_string (account_data : string) : M loc :=
  try_except
    (match split ";" account_data with
     | [name; balance_text; status_text] =>
         let name := strip name in
         match float balance_text with
         | Some b => __init__ name (VFloat b) (VStr (strip status_text))
         | None => raise ValueError
         end
     | _ => raise ValueError
     end)
    (fun exc => raise (InvalidAccountError FailedToParse (Some exc))).

End FromString.

End BankAccount.

(** * Definitions the statements are written with *)

(** The object after a successful [deposit]. *)
Definition deposited (a : account) (amount : value) : account :=
  let b := (_balance a + num amount)%Q in
  with_appended (with_balance a b) (Txn "Deposit" amount b None).

(** The object after a successful [withdraw]. *)
Definition withdrawn (a : account) (amount : value) : account :=
  let b := (_balance a - num amount)%Q in
  with_appended (with_balance a b) (Txn "Withdraw" amount b None).

(** What [_ensure_active] raises on the object [a]. *)
Definition not_active (a : account) : exn :=
  InvalidAccountError (NotActiveForTransactions (_account_number a)) None.

(** The two appends that end [transfer], run after [withdraw] and [deposit]
    have returned. *)
Definition transfer_records (self target : loc) (amount : value) : M bool :=
  b <- BankAccount.balance self ;;
  n <- BankAccount.account_number target ;;
  append_transaction self (Txn "Transfer to" amount b (Some n)) ;;
  b <- BankAccount.balance target ;;
  n <- BankAccount.account_number self ;;
  append_transaction target (Txn "Transfer from" amount b (Some n)) ;;
  ret true.

(** The source object after its [Transfer to] record is appended. *)
Definition sent (a : account) (amount : value) (other : Z) : account :=
  with_appended a (Txn "Transfer to" amount (_balance a) (Some other)).

(** The target object after its [Transfer from] record is appended. *)
Definition received (a : account) (amount : value) (other : Z) : account :=
  with_appended a (Txn "Transfer from" amount (_balance a) (Some other)).

(** What the constructor and the [status] setter raise on a value that is
    neither ["active"] nor ["inactive"]. *)
Definition bad_status : exn :=
  InvalidAccountError StatusMustBeActiveOrInactive None.

(** [v in ("active", "inactive")]. *)
Definition is_status (v : value) : bool :=
  eq_str v "active" || eq_str v "inactive".

(** The string a [str] value holds. *)
Definition str_of (v : value) : string :=
  match v with VStr t => t | _ => EmptyString end.

(** The object [__init__] builds. *)
Definition created (counter : Z) (account_holder : string) (b : Q)
    (status : string) : account :=
  Account counter account_holder b status
          [Txn "Account created" (VFloat b) b None].

(** What a caller reads off the object at [l]: [get_transaction_history()],
    [balance] and [account_number]. *)
Definition history (s : state) (l : loc) : list txn :=
  match heap s !! l with Some a => _transactions a | None => [] end.

Definition balance_of (s : state) (l : loc) : Q :=
  match heap s !! l with Some a => _balance a | None => 0%Q end.

Definition number_of (s : state) (l : loc) : Z :=
  match heap s !! l with Some a => _account_number a | None => 0 end.

(** ** Calls and reachable stores *)

(** One call of the public interface that can change the store. *)
Inductive call : Type :=
| New (account_holder : string) (initial_balance status : value)
| FromBalance (account_holder : string) (initial_balance : value)
| FromString (account_data : string)
| SetBalance (self : loc) (new_value : value)
| SetStatus (self : loc) (v : value)
| Deposit (self : loc) (amount : value)
| Withdraw (self : loc) (amount : value)
| Transfer (self : loc) (amount target_account : value).

Section Reachable.

Variable float : string -> option Q.

(** The store a call leaves behind, whether it returned or raised. *)
Definition exec (c : call) (s : state) : state :=
  match c with
  | New h b st => final (BankAccount.__init__ h b st s)
  | FromBalance h b => final (BankAccount.from_balance h b s)
  | FromString d => final (BankAccount.from_string float d s)
  | SetBalance l v => final (BankAccount.balance_setter l v s)
  | SetStatus l v => final (BankAccount.status_setter l v s)
  | Deposit l v => final (BankAccount.deposit l v s)
  | Withdraw l v => final (BankAccount.withdraw l v s)
  | Transfer l v t => final (BankAccount.transfer l v t s)
  end.

(** The store after a sequence of calls, first call first. *)
Definition run (cs : list call) (s : state) : state :=
  fold_left (fun s c => exec c s) cs s.

End Reachable.

(** The invariant of every reachable store: the counter has counted the
    objects, the object at location [i] has number [1001 + i], and no
    balance is negative. *)
Record wf (s : state) : Prop := {
  wf_counter : _account_counter s = 1000 + Z.of_nat (length (heap s));
  wf_number : forall (i : loc) (a : account),
    heap s !! i = Some a -> _account_number a = 1001 + Z.of_nat i;
  wf_balance : forall (i : loc) (a : account),
    heap s !! i = Some a -> (0 <= _balance a)%Q
}.

(** A computation keeps an invariant of the store, returning or raising. *)
Definition preserves {A} (I : state -> Prop) (m : M A) : Prop :=
  forall s, I s -> I (final (m s)).

(** ** A small store to run the methods on *)

(** The accounts of the module's demonstration. *)
Definition john : account := created 1001 "John Doe" 1000 "active".

Definition jane (status : string) : account :=
  created 1002 "Jane Smith" 500 status.

(** Two accounts, the second with the given status. *)
Definition demo (status : string) : state := State 1002 [john; jane status].

(** A fragment of the builtin [float] to run [from_string] with: a
    non-empty string of decimal digits is the integer it writes, anything
    else is rejected. *)
Fixpoint digits (s : string) (acc : Z) : option Z :=
  match s with
  | EmptyString => Some acc
  | String c r =>
      let n := nat_of_ascii c in
      if ((48 <=? n) && (n <=? 57))%nat
      then digits r (10 * acc + Z.of_nat (n - 48))
      else None
  end.

Definition float_of_digits (s : string) : option Q :=
  match s with
  | EmptyString => None
  | _ => inject_Z <$> digits s 0
  end.

(** What [from_string] raises when [cause] was raised inside its [try]. *)
Definition parse_failure (cause : exn) : exn :=
  InvalidAccountError FailedToParse (Some cause).

(** ** Further notions: success, errors, totals, ledgers *)

(** The exception a computation ended with, if it raised. *)
Definition error_of {A} (o : outcome A) : option exn :=
  match o with
  | Return _ _ => None
  | Raise e _ => Some e
  end.

(** The exception a call of the public interface ends with, if it raises. *)
Definition raised (float : string -> option Q) (c : call) (s : state)
    : option exn :=
  match c with
  | New h b st => error_of (BankAccount.__init__ h b st s)
  | FromBalance h b => error_of (BankAccount.from_balance h b s)
  | FromString d => error_of (BankAccount.from_string float d s)
  | SetBalance l v => error_of (BankAccount.balance_setter l v s)
  | SetStatus l v => error_of (BankAccount.status_setter l v s)
  | Deposit l v => error_of (BankAccount.deposit l v s)
  | Withdraw l v => error_of (BankAccount.withdraw l v s)
  | Transfer l v t => error_of (BankAccount.transfer l v t s)
  end.

(** Every reference a call passes is a reference to an object of the
    store, as every reference of a Python program is. *)
Definition refs_ok (s : state) (c : call) : Prop :=
  match c with
  | New _ _ _ | FromBalance _ _ | FromString _ => True
  | SetBalance l _ | SetStatus l _ | Deposit l _ | Withdraw l _ =>
      (l < length (heap s))%nat
  | Transfer l _ t =>
      (l < length (heap s))%nat
      /\ match t with
         | VAccount l' => (l' < length (heap s))%nat
         | _ => True
         end
  end.

(** The call is an assignment to the [balance] property. *)
Definition is_SetBalance (c : call) : bool :=
  match c with SetBalance _ _ => true | _ => false end.

(** The sum of the balances of all accounts. *)
Definition total (s : state) : Q :=
  foldr (fun a acc => (_balance a + acc)%Q) 0%Q (heap s).

(** The number of occurrences of a character in a string. *)
Fixpoint count_char (c : ascii) (s : string) : nat :=
  match s with
  | EmptyString => 0%nat
  | String d r => ((if Ascii.eqb d c then 1 else 0) + count_char c r)%nat
  end.

(** The first and the last character of a string. *)
Definition first_char (s : string) : option ascii :=
  match s with
  | EmptyString => None
  | String c _ => Some c
  end.

Fixpoint last_char (s : string) : option ascii :=
  match s with
  | EmptyString => None
  | String c EmptyString => Some c
  | String _ r => last_char r
  end.

(** A record that is consistent with the balance [prev] before it: a
    deposit adds its amount, a withdrawal subtracts it, and the two transfer
    records restate the balance the inner [withdraw] or [deposit] left. *)
Definition follows (prev : Q) (t : txn) : Prop :=
  (action t = "Deposit" ->
     resulting_balance t = (prev + num (amount t))%Q)
  /\ (action t = "Withdraw" ->
     resulting_balance t = (prev - num (amount t))%Q)
  /\ (action t = "Transfer to" \/ action t = "Transfer from" ->
     resulting_balance t = prev)
  /\ (action t = "Deposit" \/ action t = "Withdraw"
      \/ action t = "Transfer to" \/ action t = "Transfer from").

(** A run of records, each consistent with the one before it. *)
Fixpoint ledger_from (prev : Q) (ts : list txn) : Prop :=
  match ts with
  | [] => True
  | t :: r => follows prev t /\ ledger_from (resulting_balance t) r
  end.

(** The balance the last record of a history reports. *)
Definition last_balance (prev : Q) (ts : list txn) : Q :=
  fold_left (fun _ t => resulting_balance t) ts prev.

(** The history of an account is a ledger of it: it starts with the
    creation record, every later record is consistent with the one before,
    and the last one reports the balance the account has. *)
Definition ledger (a : account) : Prop :=
  match _transactions a with
  | [] => False
  | t :: r =>
      action t = "Account created"
      /\ amount t = VFloat (resulting_balance t)
      /\ ledger_from (resulting_balance t) r
      /\ last_balance (resulting_balance t) r = _balance a
  end.

(** What holds of every object whatever is called: the status is one of
    the two allowed, and the history starts with the creation record, whose
    amount is its resulting balance and is not negative. *)
Definition sound (a : account) : Prop :=
  (_status a = "active" \/ _status a = "inactive")
  /\ exists b ts,
       _transactions a = Txn "Account created" (VFloat b) b None :: ts
       /\ (0 <= b)%Q.

(** How an object can differ from what it was: the identity is kept and the
    history has only grown at its end. *)
Definition grown (a a' : account) : Prop :=
  _account_number a' = _account_number a
  /\ _account_holder a' = _account_holder a
  /\ _transactions a `prefix_of` _transactions a'.

(** How a store can differ from what it was: every object is still there,
    at its location, and has [grown]. *)
Definition evolved (s s' : state) : Prop :=
  _account_counter s <= _account_counter s'
  /\ forall l a, heap s !! l = Some a ->
       exists a', heap s' !! l = Some a' /\ grown a a'.

(** The computation returned a reference to an object with status
    ["active"]. *)
Definition returned_active (o : outcome loc) : Prop :=
  match o with
  | Return l s => (_status <$> heap s !! l) = Some "active"
  | Raise _ _ => False
  end.

(** Every object of the store is [sound]. *)
Definition all_sound (s : state) : Prop :=
  forall l a, heap s !! l = Some a -> sound a.

(** Every object of the store has a history that is a [ledger] of it. *)
Definition all_ledger (s : state) : Prop :=
  forall l a, heap s !! l = Some a -> ledger a.

(** [sep.join(ws)] for a one-character separator. *)
Fixpoint join (sep : ascii) (ws : list string) : string :=
  match ws with
  | [] => EmptyString
  | w :: r =>
      match r with
      | [] => w
      | _ => w ++ String sep (join sep r)
      end
  end.

(** Every character of the string is whitespace. *)
Fixpoint all_space (s : string) : bool :=
  match s with
  | EmptyString => true
  | String c r => isspace c && all_space r
  end.

(** The string has no whitespace at its start and none at its end. *)
Definition no_outer_space (s : string) : Prop :=
  (forall c, first_char s = Some c -> isspace c = false)
  /\ (forall c, last_char s = Some c -> isspace c = false).

(** The call is a [transfer]. *)
Definition is_Transfer (c : call) : bool :=
  match c with Transfer _ _ _ => true | _ => false end.

(** The call is made on, or names as its target, the object at [l]. *)
Definition involves (c : call) (l : loc) : Prop :=
  match c with
  | New _ _ _ | FromBalance _ _ | FromString _ => False
  | SetBalance self _ | SetStatus self _ | Deposit self _
  | Withdraw self _ => l = self
  | Transfer self _ t => l = self \/ t = VAccount l
  end.

(** [float(v)] is exact and cannot fail: [v] is not an [int] of a magnitude
    above 2^53.  The numbers of the model are exact and unbounded; this
    marks the arguments on which a statement about every exception speaks
    for the doubles of the code as well. *)
Definition converts (v : value) : Prop :=
  match v with
  | VInt n => Z.abs n <= 2 ^ 53
  | _ => True
  end.

(** The numbers a call passes all convert. *)
Definition arguments_convert (c : call) : Prop :=
  match c with
  | New _ v _ | FromBalance _ v | SetBalance _ v | Deposit _ v
  | Withdraw _ v | Transfer _ v _ => converts v
  | FromString _ | SetStatus _ _ => True
  end.

(** * The class on doubles

    The embedding above takes numbers as exact.  This one takes them as
    CPython has them: a [float] is an IEEE-754 binary64 value, with its NaN,
    its infinities and its rounding to nearest-even; an [int] is unbounded
    and becomes a [float] by correct rounding, or not at all; and the
    exception classes format their arguments when they are built, which can
    itself raise.  It covers the constructor and the three financial
    operations, and is used to run the code on the inputs where the two
    embeddings part. *)

Module Double.

(** ** Values and numbers *)

Inductive value : Type :=
| VNone
| VBool (b : bool)
| VInt (n : Z)
| VFloat (x : PrimFloat.float)
| VStr (s : string)
| VAccount (l : loc).

(** [isinstance(v, (int, float))]. *)
Definition is_number (v : value) : bool :=
  match v with
  | VBool _ | VInt _ | VFloat _ => true
  | _ => false
  end.

(** [float(n)] for an [int]: the nearest double, ties to even, and
    [None], the [OverflowError], when that is beyond the largest double. *)
Definition float_of_int (n : Z) : option PrimFloat.float :=
  match SpecFloat.binary_normalize FloatOps.prec FloatOps.emax n 0 false with
  | SpecFloat.S754_infinity _ => None
  | x => Some (FloatOps.SF2Prim x)
  end.

(** [float(v)] for a number. *)
Definition to_float (v : value) : option PrimFloat.float :=
  match v with
  | VBool b => float_of_int (if b then 1 else 0)
  | VInt n => float_of_int n
  | VFloat x => Some x
  | _ => None
  end.

(** An [int] compared with a [float], as CPython does it: exactly, without
    converting the [int].  [None] is the unordered case, a NaN. *)
Definition compare_int_float (n : Z) (x : PrimFloat.float)
    : option comparison :=
  match FloatOps.Prim2SF x with
  | SpecFloat.S754_nan => None
  | SpecFloat.S754_infinity true => Some Gt
  | SpecFloat.S754_infinity false => Some Lt
  | SpecFloat.S754_zero _ => Some (Z.compare n 0)
  | SpecFloat.S754_finite s m e =>
      let m := if s then Z.neg m else Z.pos m in
      if Z.leb 0 e then Some (Z.compare n (m * 2 ^ e))
      else Some (Z.compare (n * 2 ^ (- e)) m)
  end.

(** Two numbers compared. *)
Definition compare (a b : value) : option comparison :=
  let int_of v :=
    match v with
    | VBool b => Some (if b then 1 else 0)
    | VInt n => Some n
    | _ => None
    end in
  match int_of a, int_of b, a, b with
  | Some n, Some m, _, _ => Some (Z.compare n m)
  | Some n, None, _, VFloat y => compare_int_float n y
  | None, Some m, VFloat x, _ => option_map CompOpp (compare_int_float m x)
  | None, None, VFloat x, VFloat y =>
      match PrimFloat.compare x y with
      | PrimFloat.FEq => Some Eq
      | PrimFloat.FLt => Some Lt
      | PrimFloat.FGt => Some Gt
      | PrimFloat.FNotComparable => None
      end
  | _, _, _, _ => None
  end.

(** [a < b], [a <= b] and [a > b]: [False] when a NaN is involved. *)
Definition lt (a b : value) : bool :=
  match compare a b with Some Lt => true | _ => false end.

Definition le (a b : value) : bool :=
  match compare a b with Some Lt | Some Eq => true | _ => false end.

Definition gt (a b : value) : bool :=
  match compare a b with Some Gt => true | _ => false end.

Definition eq_str (v : value) (s : string) : bool :=
  match v with
  | VStr t => String.eqb t s
  | _ => false
  end.

(** ** Formatting *)

(** The digits [str] and [repr] write for an [int] at most: the default of
    [sys.get_int_max_str_digits()] since CPython 3.11. *)
Definition int_max_str_digits : Z := 4300.

(** [f"{v!r}"] succeeds: it raises [ValueError] for an [int] of more
    digits than the limit. *)
Definition repr_succeeds (v : value) : bool :=
  match v with
  | VInt n => Z.ltb (Z.abs n) (10 ^ int_max_str_digits)
  | _ => true
  end.

(** [f"{v:.2f}"] succeeds for a number: an [int] is converted to a [float]
    first, which raises [OverflowError] beyond the doubles. *)
Definition format_2f_succeeds (v : value) : bool :=
  match to_float v with Some _ => true | None => false end.

(** ** Exceptions *)

Inductive amount_info : Type :=
| Offending (v : value)
| BalanceCannotBeNegative (v : value).

Inductive exn : Type :=
| InsufficientFundsError (balance : PrimFloat.float) (amount : value)
| InvalidAmountError (info : amount_info)
| InvalidAccountError (info : account_info)
| ValueError
| OverflowError
| DanglingReference.

Definition is_BankAccountError (e : exn) : bool :=
  match e with
  | InsufficientFundsError _ _ | InvalidAmountError _
  | InvalidAccountError _ => true
  | _ => false
  end.

(** ** Objects, the store and the monad *)

Record txn : Type := Txn {
  action : string;
  amount : value;
  resulting_balance : PrimFloat.float;
  other_account_number : option Z
}.

Record account : Type := Account {
  _account_number : Z;
  _account_holder : string;
  _balance : PrimFloat.float;
  _status : string;
  _transactions : list txn
}.

Record state : Type := State {
  _account_counter : Z;
  heap : list account
}.

Definition initial_state : state := State 1000 [].

Inductive outcome (A : Type) : Type :=
| Return (a : A) (s : state)
| Raise (e : exn) (s : state).
Arguments Return {A} a s.
Arguments Raise {A} e s.

Definition M (A : Type) : Type := state -> outcome A.

Definition ret {A} (a : A) : M A := fun s => Return a s.

Definition bind {A B} (m : M A) (k : A -> M B) : M B :=
  fun s => match m s with
           | Return a s' => k a s'
           | Raise e s' => Raise e s'
           end.

Definition raise {A} (e : exn) : M A := fun s => Raise e s.

Declare Scope double_scope.
Notation "x <- m ;; k" := (bind m (fun x => k))
  (at level 100, m at next level, right associativity) : double_scope.
Notation "m ;; k" := (bind m (fun _ => k))
  (at level 100, right associativity) : double_scope.
Local Open Scope double_scope.

Definition final {A} (o : outcome A) : state :=
  match o with
  | Return _ s => s
  | Raise _ s => s
  end.

Definition read (self : loc) : M account :=
  fun s => match heap s !! self with
           | Some a => Return a s
           | None => Raise DanglingReference s
           end.

Definition write (self : loc) (a : account) : M unit :=
  fun s => Return tt (State (_account_counter s) (<[self := a]> (heap s))).

Definition set_balance (self : loc) (b : PrimFloat.float) : M unit :=
  a <- read self ;;
  write self (Account (_account_number a) (_account_holder a) b
                (_status a) (_transactions a)).

Definition append_transaction (self : loc) (t : txn) : M unit :=
  a <- read self ;;
  write self (Account (_account_number a) (_account_holder a) (_balance a)
                (_status a) (_transactions a ++ [t])).

(** [raise InvalidAmountError(v)]: the class formats [v] with [!r]. *)
Definition raise_InvalidAmountError {A} (v : value) : M A :=
  if repr_succeeds v then raise (InvalidAmountError (Offending v))
  else raise ValueError.

(** [raise InvalidAmountError(f"Balance cannot be negative: {v!r}")]. *)
Definition raise_negative {A} (v : value) : M A :=
  if repr_succeeds v
  then raise (InvalidAmountError (BalanceCannotBeNegative v))
  else raise ValueError.

(** [raise InsufficientFundsError(balance, amount)]: the class formats both
    with [:.2f]. *)
Definition raise_InsufficientFundsError {A} (balance : PrimFloat.float)
    (amount : value) : M A :=
  if format_2f_succeeds amount
  then raise (InsufficientFundsError balance amount)
  else raise OverflowError.

(** [b + v] and [b - v] for a [float] and a number: an [int] is converted
    first. *)
Definition add (b : PrimFloat.float) (v : value) : M PrimFloat.float :=
  match to_float v with
  | Some x => ret (PrimFloat.add b x)
  | None => raise OverflowError
  end.

Definition sub (b : PrimFloat.float) (v : value) : M PrimFloat.float :=
  match to_float v with
  | Some x => ret (PrimFloat.sub b x)
  | None => raise OverflowError
  end.

(** ** The class *)

Module BankAccount.

(** [__init__]: the counter is incremented before [float(initial_balance)]
    is computed. *)
Definition __init__ (account_holder : string)
    (initial_balance status : value) : M loc :=
  if negb (is_number initial_balance) then
    raise_InvalidAmountError initial_balance
  else if lt initial_balance (VInt 0) then
    raise_negative initial_balance
  else if negb (eq_str status "active" || eq_str status "inactive") then
    raise (InvalidAccountError StatusMustBeActiveOrInactive)
  else fun s =>
    let counter := _account_counter s + 1 in
    let s := State counter (heap s) in
    match to_float initial_balance with
    | None => Raise OverflowError s
    | Some b =>
        let st := match status with VStr t => t | _ => EmptyString end in
        let obj :=
          Account counter account_holder b st
            [Txn "Account created" (VFloat b) b None] in
        Return (length (heap s)) (State counter (heap s ++ [obj]))
    end.

Definition balance (self : loc) : M PrimFloat.float :=
  a <- read self ;; ret (_balance a).

Definition account_number (self : loc) : M Z :=
  a <- read self ;; ret (_account_number a).

Definition _validate_amount (amount : value) : M bool :=
  if negb (is_number amount) then raise_InvalidAmountError amount
  else if le amount (VInt 0) then raise_InvalidAmountError amount
  else ret true.

Definition _ensure_active (self : loc) : M unit :=
  a <- read self ;;
  if negb (String.eqb (_status a) "active") then
    raise (InvalidAccountError
             (NotActiveForTransactions (_account_number a)))
  else ret tt.

Definition deposit (self : loc) (amount : value) : M PrimFloat.float :=
  _ensure_active self ;;
  _validate_amount amount ;;
  b <- balance self ;;
  b <- add b amount ;;
  set_balance self b ;;
  b <- balance self ;;
  append_transaction self (Txn "Deposit" amount b None) ;;
  balance self.

Definition withdraw (self : loc) (amount : value) : M PrimFloat.float :=
  _ensure_active self ;;
  _validate_amount amount ;;
  b <- balance self ;;
  if gt amount (VFloat b) then raise_InsufficientFundsError b amount
  else
    b <- sub b amount ;;
    set_balance self b ;;
    b <- balance self ;;
    append_transaction self (Txn "Withdraw" amount b None) ;;
    balance self.

Definition transfer (self : loc) (amount : value)
    (target_account : value) : M bool :=
  _ensure_active self ;;
  match target_account with
  | VAccount target =>
      _validate_amount amount ;;
      withdraw self amount ;;
      deposit target amount ;;
      b <- balance self ;;
      n <- account_number target ;;
      append_transaction self (Txn "Transfer to" amount b (Some n)) ;;
      b <- balance target ;;
      n <- account_number self ;;
      append_transaction target (Txn "Transfer from" amount b (Some n)) ;;
      ret true
  | _ => raise (InvalidAccountError TargetMustBeBankAccount)
  end.

End BankAccount.

(** The balance of the object at [l], if there is one. *)
Definition balance_of (s : state) (l : loc) : option PrimFloat.float :=
  _balance <$> heap s !! l.

(** The account number of the object at [l], if there is one. *)
Definition number_of (s : state) (l : loc) : option Z :=
  _account_number <$> heap s !! l.

(** The history of the object at [l], if there is one. *)
Definition history (s : state) (l : loc) : option (list txn) :=
  _transactions <$> heap s !! l.

(** Python's [x >= 0] on a balance. *)
Definition ge_zero (x : PrimFloat.float) : bool := le (VInt 0) (VFloat x).

(** Two accounts made by the constructor in a fresh process: the first
    with the balance [10 ** 16], the second with the balance 500. *)
Definition demo : state :=
  final (BankAccount.__init__ "Jane Smith" (VInt 500) (VStr "active")
    (final (BankAccount.__init__ "John Doe" (VInt (10 ^ 16)) (VStr "active")
              initial_state))).

End Double.

(** * Properties *)

(** ** Sanity checks of the builtins *)

Example split_three :
  split ";" "Bob Wilson;750;active" = ["Bob Wilson"; "750"; "active"].
Proof. reflexivity. Qed.

Example split_keeps_empty_fields : split ";" "a;;b;" = ["a"; ""; "b"; ""].
Proof. reflexivity. Qed.

Example split_no_separator : split ";" "bad" = ["bad"].
Proof. reflexivity. Qed.

Example strip_both_ends : strip "  a b  " = "a b".
Proof. reflexivity. Qed.

(** ** Comparisons *)

Lemma lt_spec (a b : Q) : lt a b = true <-> (a < b)%Q.
Proof.
  unfold lt. rewrite negb_true_iff. split.
  - intros H. apply Qnot_le_lt. intros Hle.
    apply Qle_bool_iff in Hle. congruence.
  - intros H. destruct (Qle_bool b a) eqn:E; [|reflexivity].
    apply Qle_bool_iff in E. exfalso. eapply Qlt_not_le; eassumption.
Qed.

Lemma lt_false (a b : Q) : lt a b = false <-> (b <= a)%Q.
Proof.
  unfold lt. rewrite negb_false_iff. apply Qle_bool_iff.
Qed.

Lemma le_spec (a b : Q) : le a b = true <-> (a <= b)%Q.
Proof. apply Qle_bool_iff. Qed.

Lemma le_false (a b : Q) : le a b = false <-> (b < a)%Q.
Proof.
  rewrite <- lt_spec. unfold lt, le.
  destruct (Qle_bool a b); simpl; intuition congruence.
Qed.


Lemma gt_false (a b : Q) : gt a b = false <-> (a <= b)%Q.
Proof. apply lt_false. Qed.

(** ** The store *)

Lemma read_Some (self : loc) (s : state) (a : account) :
  heap s !! self = Some a -> read self s = Return a s.
Proof. intros H. unfold read. rewrite H. reflexivity. Qed.

Lemma read_None (self : loc) (s : state) :
  heap s !! self = None -> read self s = Raise DanglingReference s.
Proof. intros H. unfold read. rewrite H. reflexivity. Qed.

Lemma heap_store_eq (self : loc) (a a' : account) (s : state) :
  heap s !! self = Some a -> heap (store self a' s) !! self = Some a'.
Proof.
  intros H. simpl. apply list_lookup_insert_eq.
  eapply lookup_lt_Some; eassumption.
Qed.

Lemma heap_store_ne (self l : loc) (a' : account) (s : state) :
  self <> l -> heap (store self a' s) !! l = heap s !! l.
Proof. intros H. simpl. apply list_lookup_insert_ne. assumption. Qed.

Lemma store_store (self : loc) (a1 a2 : account) (s : state) :
  store self a2 (store self a1 s) = store self a2 s.
Proof. unfold store. simpl. rewrite list_insert_insert_eq. reflexivity. Qed.

Lemma store_same (self : loc) (a : account) (s : state) :
  heap s !! self = Some a -> store self a s = s.
Proof.
  intros H. destruct s as [c h]. unfold store. simpl in *.
  rewrite list_insert_id by assumption. reflexivity.
Qed.

Lemma length_heap_store (self : loc) (a : account) (s : state) :
  length (heap (store self a s)) = length (heap s).
Proof. simpl. apply length_insert. Qed.

Lemma counter_store (self : loc) (a : account) (s : state) :
  _account_counter (store self a s) = _account_counter s.
Proof. reflexivity. Qed.

(** ** Closed forms of the methods *)

(** The primitive steps, run on a store where [self] holds [a]. *)
Lemma set_balance_Some (self : loc) (b : Q) (s : state) (a : account) :
  heap s !! self = Some a ->
  set_balance self b s = Return tt (store self (with_balance a b) s).
Proof. intros H. unfold set_balance, bind. rewrite (read_Some _ _ _ H). reflexivity. Qed.

Lemma set_status_Some (self : loc) (v : string) (s : state) (a : account) :
  heap s !! self = Some a ->
  set_status self v s = Return tt (store self (with_status a v) s).
Proof. intros H. unfold set_status, bind. rewrite (read_Some _ _ _ H). reflexivity. Qed.

Lemma append_transaction_Some (self : loc) (t : txn) (s : state) (a : account) :
  heap s !! self = Some a ->
  append_transaction self t s = Return tt (store self (with_appended a t) s).
Proof.
  intros H. unfold append_transaction, bind.
  rewrite (read_Some _ _ _ H). reflexivity.
Qed.

Lemma balance_Some (self : loc) (s : state) (a : account) :
  heap s !! self = Some a -> BankAccount.balance self s = Return (_balance a) s.
Proof.
  intros H. unfold BankAccount.balance, bind.
  rewrite (read_Some _ _ _ H). reflexivity.
Qed.

Lemma account_number_Some (self : loc) (s : state) (a : account) :
  heap s !! self = Some a ->
  BankAccount.account_number self s = Return (_account_number a) s.
Proof.
  intros H. unfold BankAccount.account_number, bind.
  rewrite (read_Some _ _ _ H). reflexivity.
Qed.

Lemma _ensure_active_eq (self : loc) (s : state) :
  BankAccount._ensure_active self s =
  match heap s !! self with
  | None => Raise DanglingReference s
  | Some a =>
      if negb (String.eqb (_status a) "active") then Raise (not_active a) s
      else Return tt s
  end.
Proof.
  unfold BankAccount._ensure_active, bind, read.
  destruct (heap s !! self) as [a|]; [|reflexivity].
  destruct (negb _); reflexivity.
Qed.

Lemma _validate_amount_eq (amount : value) (s : state) :
  BankAccount._validate_amount amount s =
  if negb (is_number amount) || le (num amount) 0
  then Raise (InvalidAmountError (Offending amount)) s
  else Return true s.
Proof.
  unfold BankAccount._validate_amount.
  destruct (negb (is_number amount)); [reflexivity|].
  destruct (le (num amount) 0); reflexivity.
Qed.

Lemma deposit_eq (self : loc) (amount : value) (s : state) :
  BankAccount.deposit self amount s =
  match heap s !! self with
  | None => Raise DanglingReference s
  | Some a =>
      if negb (String.eqb (_status a) "active") then Raise (not_active a) s
      else if negb (is_number amount) || le (num amount) 0
      then Raise (InvalidAmountError (Offending amount)) s
      else Return (_balance a + num amount)%Q
                  (store self (deposited a amount) s)
  end.
Proof.
  unfold BankAccount.deposit. unfold bind at 1.
  rewrite _ensure_active_eq.
  destruct (heap s !! self) as [a|] eqn:Ha; [|reflexivity].
  destruct (negb (String.eqb _ _)); [reflexivity|].
  unfold bind at 1. rewrite _validate_amount_eq.
  destruct (negb (is_number amount) || le (num amount) 0); [reflexivity|].
  unfold bind at 1. rewrite (balance_Some _ _ _ Ha).
  unfold bind at 1. rewrite (set_balance_Some _ _ _ _ Ha).
  pose proof (heap_store_eq self a (with_balance a (_balance a + num amount)) s Ha) as H1.
  unfold bind at 1. rewrite (balance_Some _ _ _ H1).
  unfold bind at 1. rewrite (append_transaction_Some _ _ _ _ H1).
  rewrite store_store.
  erewrite balance_Some by (eapply heap_store_eq; eassumption).
  reflexivity.
Qed.

Lemma withdraw_eq (self : loc) (amount : value) (s : state) :
  BankAccount.withdraw self amount s =
  match heap s !! self with
  | None => Raise DanglingReference s
  | Some a =>
      if negb (String.eqb (_status a) "active") then Raise (not_active a) s
      else if negb (is_number amount) || le (num amount) 0
      then Raise (InvalidAmountError (Offending amount)) s
      else if gt (num amount) (_balance a)
      then Raise (InsufficientFundsError (_balance a) (num amount)) s
      else Return (_balance a - num amount)%Q
                  (store self (withdrawn a amount) s)
  end.
Proof.
  unfold BankAccount.withdraw. unfold bind at 1.
  rewrite _ensure_active_eq.
  destruct (heap s !! self) as [a|] eqn:Ha; [|reflexivity].
  destruct (negb (String.eqb _ _)); [reflexivity|].
  unfold bind at 1. rewrite _validate_amount_eq.
  destruct (negb (is_number amount) || le (num amount) 0); [reflexivity|].
  unfold bind at 1. rewrite (balance_Some _ _ _ Ha).
  destruct (gt (num amount) (_balance a)); [reflexivity|].
  unfold bind at 1. rewrite (set_balance_Some _ _ _ _ Ha).
  pose proof (heap_store_eq self a (with_balance a (_balance a - num amount)) s Ha) as H1.
  unfold bind at 1. rewrite (balance_Some _ _ _ H1).
  unfold bind at 1. rewrite (append_transaction_Some _ _ _ _ H1).
  rewrite store_store.
  erewrite balance_Some by (eapply heap_store_eq; eassumption).
  reflexivity.
Qed.

Lemma transfer_eq (self : loc) (amount target_account : value) (s : state) :
  BankAccount.transfer self amount target_account s =
  match heap s !! self with
  | None => Raise DanglingReference s
  | Some a =>
      if negb (String.eqb (_status a) "active") then Raise (not_active a) s
      else match target_account with
           | VAccount target =>
               if negb (is_number amount) || le (num amount) 0
               then Raise (InvalidAmountError (Offending amount)) s
               else match BankAccount.withdraw self amount s with
                    | Raise e s1 => Raise e s1
                    | Return _ s1 =>
                        match BankAccount.deposit target amount s1 with
                        | Raise e s2 => Raise e s2
                        | Return _ s2 =>
                            transfer_records self target amount s2
                        end
                    end
           | _ => Raise (InvalidAccountError TargetMustBeBankAccount None) s
           end
  end.
Proof.
  unfold BankAccount.transfer. unfold bind at 1.
  rewrite _ensure_active_eq.
  destruct (heap s !! self) as [a|] eqn:Ha; [|reflexivity].
  destruct (negb (String.eqb _ _)); [reflexivity|].
  destruct target_account; try reflexivity.
  unfold bind at 1. rewrite _validate_amount_eq.
  destruct (negb (is_number amount) || le (num amount) 0); [reflexivity|].
  unfold bind at 1.
  destruct (BankAccount.withdraw self amount s); [|reflexivity].
  unfold bind at 1.
  destruct (BankAccount.deposit l amount s0); reflexivity.
Qed.

Lemma transfer_records_ne (self target : loc) (amount : value) (s : state)
    (a b : account) :
  self <> target ->
  heap s !! self = Some a -> heap s !! target = Some b ->
  transfer_records self target amount s =
  Return true
    (store target (received b amount (_account_number a))
       (store self (sent a amount (_account_number b)) s)).
Proof.
  intros Hne Ha Hb. unfold transfer_records.
  unfold bind at 1. rewrite (balance_Some _ _ _ Ha).
  unfold bind at 1. rewrite (account_number_Some _ _ _ Hb).
  unfold bind at 1. rewrite (append_transaction_Some _ _ _ _ Ha).
  fold (sent a amount (_account_number b)).
  set (s1 := store self (sent a amount (_account_number b)) s).
  assert (Hb1 : heap s1 !! target = Some b).
  { subst s1. rewrite heap_store_ne by assumption. assumption. }
  assert (Ha1 : heap s1 !! self = Some (sent a amount (_account_number b))).
  { subst s1. eapply heap_store_eq. eassumption. }
  unfold bind at 1. rewrite (balance_Some _ _ _ Hb1).
  unfold bind at 1. rewrite (account_number_Some _ _ _ Ha1).
  unfold bind at 1. rewrite (append_transaction_Some _ _ _ _ Hb1).
  reflexivity.
Qed.

Lemma transfer_records_self (self : loc) (amount : value) (s : state)
    (a : account) :
  heap s !! self = Some a ->
  transfer_records self self amount s =
  Return true
    (store self
       (received (sent a amount (_account_number a)) amount
          (_account_number a)) s).
Proof.
  intros Ha. unfold transfer_records.
  unfold bind at 1. rewrite (balance_Some _ _ _ Ha).
  unfold bind at 1. rewrite (account_number_Some _ _ _ Ha).
  unfold bind at 1. rewrite (append_transaction_Some _ _ _ _ Ha).
  fold (sent a amount (_account_number a)).
  set (s1 := store self (sent a amount (_account_number a)) s).
  assert (Ha1 : heap s1 !! self = Some (sent a amount (_account_number a))).
  { subst s1. eapply heap_store_eq. eassumption. }
  unfold bind at 1. rewrite (balance_Some _ _ _ Ha1).
  unfold bind at 1. rewrite (account_number_Some _ _ _ Ha1).
  unfold bind at 1. rewrite (append_transaction_Some _ _ _ _ Ha1).
  subst s1. rewrite store_store. reflexivity.
Qed.

Lemma __init___eq (account_holder : string) (initial_balance status : value)
    (s : state) :
  BankAccount.__init__ account_holder initial_balance status s =
  if negb (is_number initial_balance)
  then Raise (InvalidAmountError (Offending initial_balance)) s
  else if lt (num initial_balance) 0
  then Raise (InvalidAmountError (BalanceCannotBeNegative initial_balance)) s
  else if negb (is_status status) then Raise bad_status s
  else Return (length (heap s))
         (State (_account_counter s + 1)
            (heap s ++ [created (_account_counter s + 1) account_holder
                          (num initial_balance) (str_of status)])).
Proof.
  unfold BankAccount.__init__, is_status.
  destruct (negb (is_number initial_balance)); [reflexivity|].
  destruct (lt (num initial_balance) 0); [reflexivity|].
  destruct (negb (eq_str status "active" || eq_str status "inactive"));
    reflexivity.
Qed.

Lemma balance_setter_eq (self : loc) (new_value : value) (s : state) :
  BankAccount.balance_setter self new_value s =
  if negb (is_number new_value)
  then Raise (InvalidAmountError (Offending new_value)) s
  else if lt (num new_value) 0
  then Raise (InvalidAmountError (BalanceCannotBeNegative new_value)) s
  else match heap s !! self with
       | None => Raise DanglingReference s
       | Some a => Return tt (store self (with_balance a (num new_value)) s)
       end.
Proof.
  unfold BankAccount.balance_setter.
  destruct (negb (is_number new_value)); [reflexivity|].
  destruct (lt (num new_value) 0); [reflexivity|].
  unfold set_balance, bind, read.
  destruct (heap s !! self); reflexivity.
Qed.

Lemma status_setter_eq (self : loc) (v : value) (s : state) :
  BankAccount.status_setter self v s =
  if negb (is_status v) then Raise bad_status s
  else match heap s !! self with
       | None => Raise DanglingReference s
       | Some a => Return tt (store self (with_status a (str_of v)) s)
       end.
Proof.
  unfold BankAccount.status_setter, is_status.
  destruct (negb (eq_str v "active" || eq_str v "inactive")); [reflexivity|].
  unfold set_status, bind, read.
  destruct (heap s !! self); reflexivity.
Qed.

Lemma preserves_ret {A} (I : state -> Prop) (a : A) : preserves I (ret a).
Proof. intros s H. exact H. Qed.

Lemma preserves_raise {A} (I : state -> Prop) (e : exn) :
  preserves I (@raise A e).
Proof. intros s H. exact H. Qed.

Lemma preserves_bind {A B} (I : state -> Prop) (m : M A) (k : A -> M B) :
  preserves I m -> (forall a, preserves I (k a)) -> preserves I (bind m k).
Proof.
  intros Hm Hk s H. unfold bind. specialize (Hm s H).
  destruct (m s) as [a s'|e s']; simpl in *.
  - apply Hk. exact Hm.
  - exact Hm.
Qed.

Lemma preserves_try_except {A} (I : state -> Prop) (m : M A)
    (h : exn -> M A) :
  preserves I m -> (forall e, preserves I (h e)) ->
  preserves I (try_except m h).
Proof.
  intros Hm Hh s H. unfold try_except. specialize (Hm s H).
  destruct (m s) as [a s'|e s']; simpl in *.
  - exact Hm.
  - apply Hh. exact Hm.
Qed.

Lemma preserves_read (I : state -> Prop) (self : loc) :
  preserves I (read self).
Proof. intros s H. unfold read. destruct (heap s !! self); exact H. Qed.

Lemma wf_store (self : loc) (a a' : account) (s : state) :
  wf s -> heap s !! self = Some a ->
  _account_number a' = _account_number a -> (0 <= _balance a')%Q ->
  wf (store self a' s).
Proof.
  intros [Hc Hn Hb] Ha Hnum Hbal. split.
  - rewrite counter_store, length_heap_store. exact Hc.
  - intros i x Hx. destruct (decide (self = i)) as [->|Hne].
    + rewrite (heap_store_eq _ _ _ _ Ha) in Hx. injection Hx as <-.
      rewrite Hnum. eapply Hn. eassumption.
    + rewrite heap_store_ne in Hx by assumption. eapply Hn. eassumption.
  - intros i x Hx. destruct (decide (self = i)) as [->|Hne].
    + rewrite (heap_store_eq _ _ _ _ Ha) in Hx. injection Hx as <-.
      exact Hbal.
    + rewrite heap_store_ne in Hx by assumption. eapply Hb. eassumption.
Qed.

Lemma wf_initial_state : wf initial_state.
Proof.
  split; [reflexivity| |]; intros i a H; simpl in H;
    rewrite lookup_nil in H; discriminate.
Qed.

(** ** Every method keeps the invariant *)

Lemma preserves_append_transaction (self : loc) (t : txn) :
  preserves wf (append_transaction self t).
Proof.
  intros s H. unfold append_transaction, bind, read.
  destruct (heap s !! self) as [a|] eqn:Ha; [|exact H].
  simpl. eapply wf_store; eauto. simpl. eapply wf_balance; eauto.
Qed.

Lemma preserves_getter {A} (self : loc) (f : account -> A) :
  preserves wf (a <- read self ;; ret (f a)).
Proof.
  apply preserves_bind; [apply preserves_read|].
  intros a. apply preserves_ret.
Qed.

Lemma preserves__ensure_active (self : loc) :
  preserves wf (BankAccount._ensure_active self).
Proof.
  intros s H. rewrite _ensure_active_eq.
  destruct (heap s !! self) as [a|]; [|exact H].
  destruct (negb _); exact H.
Qed.

Lemma preserves__validate_amount (amount : value) :
  preserves wf (BankAccount._validate_amount amount).
Proof.
  intros s H. rewrite _validate_amount_eq.
  destruct (_ || _); exact H.
Qed.

Lemma preserves_deposit (self : loc) (amount : value) :
  preserves wf (BankAccount.deposit self amount).
Proof.
  intros s H. rewrite deposit_eq.
  destruct (heap s !! self) as [a|] eqn:Ha; [|exact H].
  destruct (negb (String.eqb _ _)); [exact H|].
  destruct (negb (is_number amount) || le (num amount) 0) eqn:Hv; [exact H|].
  apply orb_false_iff in Hv as [_ Hpos]. apply le_false in Hpos.
  simpl. eapply wf_store; eauto. simpl.
  pose proof (wf_balance s H _ _ Ha). lra.
Qed.

Lemma preserves_withdraw (self : loc) (amount : value) :
  preserves wf (BankAccount.withdraw self amount).
Proof.
  intros s H. rewrite withdraw_eq.
  destruct (heap s !! self) as [a|] eqn:Ha; [|exact H].
  destruct (negb (String.eqb _ _)); [exact H|].
  destruct (negb (is_number amount) || le (num amount) 0); [exact H|].
  destruct (gt (num amount) (_balance a)) eqn:Hgt; [exact H|].
  apply gt_false in Hgt.
  simpl. eapply wf_store; eauto. simpl. lra.
Qed.

Lemma preserves_transfer (self : loc) (amount target_account : value) :
  preserves wf (BankAccount.transfer self amount target_account).
Proof.
  unfold BankAccount.transfer.
  apply preserves_bind; [apply preserves__ensure_active|]. intros _.
  destruct target_account; try apply preserves_raise.
  apply preserves_bind; [apply preserves__validate_amount|]. intros _.
  apply preserves_bind; [apply preserves_withdraw|]. intros _.
  apply preserves_bind; [apply preserves_deposit|]. intros _.
  apply preserves_bind; [apply preserves_getter|]. intros b.
  apply preserves_bind; [apply preserves_getter|]. intros n.
  apply preserves_bind; [apply preserves_append_transaction|]. intros _.
  apply preserves_bind; [apply preserves_getter|]. intros b'.
  apply preserves_bind; [apply preserves_getter|]. intros n'.
  apply preserves_bind; [apply preserves_append_transaction|]. intros _.
  apply preserves_ret.
Qed.

Lemma preserves_balance_setter (self : loc) (new_value : value) :
  preserves wf (BankAccount.balance_setter self new_value).
Proof.
  intros s H. rewrite balance_setter_eq.
  destruct (negb (is_number new_value)); [exact H|].
  destruct (lt (num new_value) 0) eqn:Hlt; [exact H|].
  apply lt_false in Hlt.
  destruct (heap s !! self) as [a|] eqn:Ha; [|exact H].
  simpl. eapply wf_store; eauto.
Qed.

Lemma preserves_status_setter (self : loc) (v : value) :
  preserves wf (BankAccount.status_setter self v).
Proof.
  intros s H. rewrite status_setter_eq.
  destruct (negb (is_status v)); [exact H|].
  destruct (heap s !! self) as [a|] eqn:Ha; [|exact H].
  simpl. eapply wf_store; eauto. simpl. eapply wf_balance; eauto.
Qed.

Lemma preserves___init__ (account_holder : string)
    (initial_balance status : value) :
  preserves wf (BankAccount.__init__ account_holder initial_balance status).
Proof.
  intros s H. rewrite __init___eq.
  destruct (negb (is_number initial_balance)); [exact H|].
  destruct (lt (num initial_balance) 0) eqn:Hlt; [exact H|].
  apply lt_false in Hlt.
  destruct (negb (is_status status)); [exact H|].
  destruct H as [Hc Hn Hb]. simpl. split; simpl.
  - rewrite length_app. simpl. lia.
  - intros i a Hi. apply lookup_app_Some in Hi as [Hi|[Hlen Hi]].
    + eapply Hn. eassumption.
    + apply list_lookup_singleton_Some in Hi as [Hi <-]. simpl. lia.
  - intros i a Hi. apply lookup_app_Some in Hi as [Hi|[Hlen Hi]].
    + eapply Hb. eassumption.
    + apply list_lookup_singleton_Some in Hi as [Hi <-]. simpl. exact Hlt.
Qed.

Lemma preserves_from_string (float : string -> option Q)
    (account_data : string) :
  preserves wf (BankAccount.from_string float account_data).
Proof.
  unfold BankAccount.from_string.
  apply preserves_try_except; [|intros e; apply preserves_raise].
  destruct (split ";" account_data) as [|n [|b [|st [|? ?]]]];
    try apply preserves_raise.
  destruct (float b); [apply preserves___init__|apply preserves_raise].
Qed.

Lemma exec_wf (float : string -> option Q) (c : call) (s : state) :
  wf s -> wf (exec float c s).
Proof.
  intros H. destruct c; simpl.
  - apply preserves___init__, H.
  - apply preserves___init__, H.
  - apply preserves_from_string, H.
  - apply preserves_balance_setter, H.
  - apply preserves_status_setter, H.
  - apply preserves_deposit, H.
  - apply preserves_withdraw, H.
  - apply preserves_transfer, H.
Qed.

Lemma run_wf (float : string -> option Q) (cs : list call) (s : state) :
  wf s -> wf (run float cs s).
Proof.
  revert s. induction cs as [|c cs IH]; intros s H; simpl.
  - exact H.
  - apply IH. apply exec_wf. exact H.
Qed.

(** [demo] is what two constructor calls make of a fresh process. *)
Example demo_reached (float : string -> option Q) (status : string) :
  is_status (VStr status) = true ->
  run float [New "John Doe" (VInt 1000) (VStr "active");
             New "Jane Smith" (VInt 500) (VStr status)] initial_state
  = demo status.
Proof.
  intros H. simpl. rewrite !__init___eq. simpl. rewrite H. reflexivity.
Qed.

(** ** The specification, statement by statement *)

(** C1 (does not hold of the code): the specification has every failing call
    leave every account as it was.  [transfer] to an inactive target raises
    [InvalidAccountError] only after [withdraw] has debited the source: the
    source's balance went from 1000 to 700 and its history gained a
    [Withdraw] record, while the target was not credited. *)
Theorem transfer_to_inactive_target_debits_source :
  exists s' a',
    BankAccount.transfer 0 (VInt 300) (VAccount 1) (demo "inactive")
      = Raise (InvalidAccountError (NotActiveForTransactions 1002) None) s'
    /\ heap (demo "inactive") !! 0%nat = Some john
    /\ heap s' !! 0%nat = Some a'
    /\ _balance john = 1000%Q /\ _balance a' = 700%Q
    /\ _transactions a'
       = (_transactions john ++ [Txn "Withdraw" (VInt 300) 700 None])%list
    /\ heap s' !! 1%nat = heap (demo "inactive") !! 1%nat
    /\ s' <> demo "inactive".
Proof.
  eexists. eexists. split; [vm_compute; reflexivity|].
  repeat split; try reflexivity. intros H. discriminate H.
Qed.



(** X21: on an active account, [deposit] and [withdraw] of a number
    [amount <= 0] that converts raise [InvalidAmountError] carrying the
    amount, in an unchanged store. *)
Theorem nonpositive_amount_rejected (s : state) (self : loc) (a : account)
    (amount : value) :
  heap s !! self = Some a -> _status a = "active" ->
  is_number amount = true -> converts amount -> (num amount <= 0)%Q ->
  BankAccount.deposit self amount s
    = Raise (InvalidAmountError (Offending amount)) s
  /\ BankAccount.withdraw self amount s
    = Raise (InvalidAmountError (Offending amount)) s.
Proof.
  intros Ha Hact Hnum _ Hle. apply le_spec in Hle.
  rewrite deposit_eq, withdraw_eq, Ha, Hact, Hnum, Hle. simpl.
  split; reflexivity.
Qed.

Lemma nonpositive_amount_rejected_witness :
  (BankAccount.deposit 0 (VInt 0) (demo "active")
     = Raise (InvalidAmountError (Offending (VInt 0))) (demo "active")
   /\ BankAccount.withdraw 0 (VInt 0) (demo "active")
     = Raise (InvalidAmountError (Offending (VInt 0))) (demo "active"))
  /\ (BankAccount.deposit 0 (VInt (-5)) (demo "active")
     = Raise (InvalidAmountError (Offending (VInt (-5)))) (demo "active")
   /\ BankAccount.withdraw 0 (VInt (-5)) (demo "active")
     = Raise (InvalidAmountError (Offending (VInt (-5)))) (demo "active")).
Proof.
  split.
  - apply (nonpositive_amount_rejected (demo "active") 0 john (VInt 0));
      [reflexivity|reflexivity|reflexivity|simpl; lia|discriminate].
  - apply (nonpositive_amount_rejected (demo "active") 0 john (VInt (-5)));
      [reflexivity|reflexivity|reflexivity|simpl; lia|discriminate].
Defined.

(** C7: on an account whose status is ["inactive"], [deposit], [withdraw]
    and [transfer] raise [InvalidAccountError], whatever the amount and the
    target are, in an unchanged store. *)
Theorem inactive_account_rejects (s : state) (self : loc) (a : account)
    (amount target_account : value) :
  heap s !! self = Some a -> _status a = "inactive" ->
  exists e,
    is_InvalidAccountError e = true
    /\ BankAccount.deposit self amount s = Raise e s
    /\ BankAccount.withdraw self amount s = Raise e s
    /\ BankAccount.transfer self amount target_account s = Raise e s.
Proof.
  intros Ha Hst. exists (not_active a).
  rewrite deposit_eq, withdraw_eq, transfer_eq, Ha, Hst. simpl.
  repeat split; reflexivity.
Qed.

Lemma inactive_account_rejects_witness :
  exists e,
    is_InvalidAccountError e = true
    /\ BankAccount.deposit 1 (VInt 50) (demo "inactive")
       = Raise e (demo "inactive")
    /\ BankAccount.withdraw 1 (VInt 50) (demo "inactive")
       = Raise e (demo "inactive")
    /\ BankAccount.transfer 1 (VInt 50) (VAccount 0) (demo "inactive")
       = Raise e (demo "inactive").
Proof.
  apply (inactive_account_rejects (demo "inactive") 1 (jane "inactive")
           (VInt 50) (VAccount 0)); reflexivity.
Defined.





Lemma deposit_Return (self : loc) (amount : value) (s s' : state) (r : Q) :
  BankAccount.deposit self amount s = Return r s' ->
  exists a, heap s !! self = Some a
            /\ s' = store self (deposited a amount) s
            /\ r = (_balance a + num amount)%Q.
Proof.
  rewrite deposit_eq. destruct (heap s !! self) as [a|]; [|discriminate].
  destruct (negb (String.eqb _ _)); [discriminate|].
  destruct (_ || _); [discriminate|].
  intros [= <- <-]. exists a. repeat split; reflexivity.
Qed.

Lemma withdraw_Return (self : loc) (amount : value) (s s' : state) (r : Q) :
  BankAccount.withdraw self amount s = Return r s' ->
  exists a, heap s !! self = Some a
            /\ s' = store self (withdrawn a amount) s
            /\ r = (_balance a - num amount)%Q.
Proof.
  rewrite withdraw_eq. destruct (heap s !! self) as [a|]; [|discriminate].
  destruct (negb (String.eqb _ _)); [discriminate|].
  destruct (_ || _); [discriminate|].
  destruct (gt _ _); [discriminate|].
  intros [= <- <-]. exists a. repeat split; reflexivity.
Qed.

Lemma transfer_Return (self : loc) (amount target_account : value)
    (s s' : state) (r : bool) :
  BankAccount.transfer self amount target_account s = Return r s' ->
  exists target b1 s1 b2 s2,
    target_account = VAccount target
    /\ BankAccount.withdraw self amount s = Return b1 s1
    /\ BankAccount.deposit target amount s1 = Return b2 s2
    /\ transfer_records self target amount s2 = Return r s'.
Proof.
  rewrite transfer_eq. destruct (heap s !! self) as [a|]; [|discriminate].
  destruct (negb (String.eqb _ _)); [discriminate|].
  destruct target_account as [| | | | |target]; try discriminate.
  destruct (_ || _); [discriminate|].
  destruct (BankAccount.withdraw self amount s) as [b1 s1|]; [|discriminate].
  destruct (BankAccount.deposit target amount s1) as [b2 s2|] eqn:Hd;
    [|discriminate].
  intros H. exists target, b1, s1, b2, s2. repeat split; assumption.
Qed.

Lemma history_store_eq (self : loc) (a a' : account) (s : state) :
  heap s !! self = Some a ->
  history (store self a' s) self = _transactions a'.
Proof.
  intros H. unfold history. rewrite (heap_store_eq _ _ _ _ H). reflexivity.
Qed.

Lemma balance_of_store_eq (self : loc) (a a' : account) (s : state) :
  heap s !! self = Some a -> balance_of (store self a' s) self = _balance a'.
Proof.
  intros H. unfold balance_of. rewrite (heap_store_eq _ _ _ _ H). reflexivity.
Qed.

(** C2 as stated fails: a successful [transfer] between two accounts appends
    two records to each history, four in all, not one to each. *)
Lemma transfer_appends_two_records_to_each :
  exists s',
    BankAccount.transfer 0 (VInt 300) (VAccount 1) (demo "active")
      = Return true s'
    /\ history s' 0
       = (history (demo "active") 0
            ++ [Txn "Withdraw" (VInt 300) 700 None;
                Txn "Transfer to" (VInt 300) 700 (Some 1002)])%list
    /\ history s' 1
       = (history (demo "active") 1
            ++ [Txn "Deposit" (VInt 300) 800 None;
                Txn "Transfer from" (VInt 300) 800 (Some 1001)])%list
    /\ ~ (exists r, history s' 0 = (history (demo "active") 0 ++ [r])%list)
    /\ ~ (exists r, history s' 1 = (history (demo "active") 1 ++ [r])%list).
Proof.
  eexists. split; [vm_compute; reflexivity|].
  split; [reflexivity|]. split; [reflexivity|].
  split; intros [r H]; vm_compute in H; discriminate H.
Qed.

Lemma history_store_ne (self l : loc) (a' : account) (s : state) :
  self <> l -> history (store self a' s) l = history s l.
Proof.
  intros H. unfold history. rewrite heap_store_ne by assumption. reflexivity.
Qed.

Lemma balance_of_store_ne (self l : loc) (a' : account) (s : state) :
  self <> l -> balance_of (store self a' s) l = balance_of s l.
Proof.
  intros H. unfold balance_of. rewrite heap_store_ne by assumption.
  reflexivity.
Qed.

(** C2, amended: a successful [deposit] or [withdraw] appends exactly one
    record to the history of its account and none to any other; a successful
    [transfer] appends exactly four: [Withdraw] then [Transfer to] to the
    source and [Deposit] then [Transfer from] to the target, all four to the
    one history when source and target are the same account, and none to any
    other account.  Each record's resulting balance is the balance of its
    account in the store it was appended in ([s1] after the [withdraw] step,
    [s2] after the [deposit] step, which is also the balance in the final
    store), and the old history stays as a prefix. *)
Theorem history_appended (s s' : state) (self : loc) (amount : value) :
  (forall r, BankAccount.deposit self amount s = Return r s' ->
     history s' self
     = (history s self
          ++ [Txn "Deposit" amount (balance_of s' self) None])%list
     /\ forall l, l <> self -> history s' l = history s l)
  /\ (forall r, BankAccount.withdraw self amount s = Return r s' ->
     history s' self
     = (history s self
          ++ [Txn "Withdraw" amount (balance_of s' self) None])%list
     /\ forall l, l <> self -> history s' l = history s l)
  /\ (forall target r,
     BankAccount.transfer self amount (VAccount target) s = Return r s' ->
     exists b1 s1 b2 s2,
       BankAccount.withdraw self amount s = Return b1 s1
       /\ BankAccount.deposit target amount s1 = Return b2 s2
       /\ (forall l, balance_of s' l = balance_of s2 l)
       /\ (forall l, l <> self -> l <> target -> history s' l = history s l)
       /\ let w := Txn "Withdraw" amount (balance_of s1 self) None in
          let d := Txn "Deposit" amount (balance_of s2 target) None in
          let o := Txn "Transfer to" amount (balance_of s2 self)
                       (Some (number_of s target)) in
          let i := Txn "Transfer from" amount (balance_of s2 target)
                       (Some (number_of s self)) in
          (self <> target ->
             history s' self = (history s self ++ [w; o])%list
             /\ history s' target = (history s target ++ [d; i])%list)
          /\ (self = target ->
             history s' self = (history s self ++ [w; d; o; i])%list)).
Proof.
  split; [|split].
  - intros r H. apply deposit_Return in H as (a & Ha & -> & _).
    rewrite (history_store_eq _ _ _ _ Ha), (balance_of_store_eq _ _ _ _ Ha).
    unfold history at 1. rewrite Ha. split; [reflexivity|].
    intros l Hl. apply history_store_ne. congruence.
  - intros r H. apply withdraw_Return in H as (a & Ha & -> & _).
    rewrite (history_store_eq _ _ _ _ Ha), (balance_of_store_eq _ _ _ _ Ha).
    unfold history at 1. rewrite Ha. split; [reflexivity|].
    intros l Hl. apply history_store_ne. congruence.
  - intros target r H.
    apply transfer_Return in H as (t & b1 & s1 & b2 & s2 & [= <-] & Hw & Hd & Hr).
    exists b1, s1, b2, s2. split; [exact Hw|]. split; [exact Hd|].
    apply withdraw_Return in Hw as (a & Ha & -> & _).
    apply deposit_Return in Hd as (b & Hb & -> & _).
    set (s1 := store self (withdrawn a amount) s) in *.
    set (s2 := store target (deposited b amount) s1) in *.
    assert (Ha1 : heap s1 !! self = Some (withdrawn a amount)).
    { subst s1. eapply heap_store_eq. eassumption. }
    assert (Hb2 : heap s2 !! target = Some (deposited b amount)).
    { subst s2. eapply heap_store_eq. eassumption. }
    destruct (decide (self = target)) as [<-|Hne].
    + rewrite (transfer_records_self _ _ _ _ Hb2) in Hr.
      injection Hr as <- <-.
      rewrite Ha1 in Hb. injection Hb as <-.
      split.
      { intros l. destruct (decide (self = l)) as [<-|Hl].
        - rewrite (balance_of_store_eq _ _ _ _ Hb2).
          unfold balance_of. rewrite Hb2. reflexivity.
        - apply balance_of_store_ne. assumption. }
      split.
      { intros l Hl _. rewrite history_store_ne by congruence.
        subst s2. rewrite history_store_ne by congruence.
        subst s1. apply history_store_ne. congruence. }
      split; [congruence|]. intros _.
      rewrite (history_store_eq _ _ _ _ Hb2).
      unfold history, balance_of, number_of. rewrite Ha1, Hb2, Ha. simpl.
      rewrite <- !app_assoc. reflexivity.
    + assert (Hb0 : heap s !! target = Some b).
      { subst s1. rewrite heap_store_ne in Hb by assumption. exact Hb. }
      assert (Ha2 : heap s2 !! self = Some (withdrawn a amount)).
      { subst s2. rewrite heap_store_ne by congruence. exact Ha1. }
      rewrite (transfer_records_ne _ _ _ _ _ _ Hne Ha2 Hb2) in Hr.
      injection Hr as <- <-.
      set (s3 := store self (sent (withdrawn a amount) amount
                               (_account_number (deposited b amount))) s2).
      assert (Hb3 : heap s3 !! target = Some (deposited b amount)).
      { subst s3. rewrite heap_store_ne by assumption. exact Hb2. }
      split.
      { intros l. destruct (decide (target = l)) as [<-|Hl].
        - rewrite (balance_of_store_eq _ _ _ _ Hb3).
          unfold balance_of. rewrite Hb2. reflexivity.
        - rewrite balance_of_store_ne by assumption.
          destruct (decide (self = l)) as [<-|Hl'].
          + subst s3. rewrite (balance_of_store_eq _ _ _ _ Ha2).
            unfold balance_of. rewrite Ha2. reflexivity.
          + apply balance_of_store_ne. assumption. }
      split.
      { intros l Hl Hl'. rewrite history_store_ne by congruence.
        subst s3. rewrite history_store_ne by congruence.
        subst s2. rewrite history_store_ne by congruence.
        subst s1. apply history_store_ne. congruence. }
      split; [|congruence]. intros _. split.
      * rewrite history_store_ne by congruence.
        subst s3. rewrite (history_store_eq _ _ _ _ Ha2).
        unfold history, balance_of, number_of. rewrite Ha1, Ha2, Ha, Hb0.
        simpl. rewrite <- !app_assoc. reflexivity.
      * rewrite (history_store_eq _ _ _ _ Hb3).
        unfold history, balance_of, number_of. rewrite Hb2, Ha, Hb0.
        simpl. rewrite <- !app_assoc. reflexivity.
Qed.

Lemma history_appended_witness :
  exists s',
    BankAccount.transfer 0 (VInt 300) (VAccount 1) (demo "active")
      = Return true s'
    /\ length (history s' 0) = 3%nat /\ length (history s' 1) = 3%nat.
Proof.
  set (s' := final (BankAccount.transfer 0 (VInt 300) (VAccount 1)
                      (demo "active"))).
  assert (Ht : BankAccount.transfer 0 (VInt 300) (VAccount 1) (demo "active")
               = Return true s') by reflexivity.
  destruct (history_appended (demo "active") s' 0 (VInt 300))
    as (_ & _ & Htr).
  destruct (Htr 1%nat true Ht) as (b1 & s1 & b2 & s2 & _ & _ & _ & _ & Hne & _).
  assert (H01 : 0%nat <> 1%nat) by discriminate.
  destruct (Hne H01) as [H0 H1].
  exists s'. split; [exact Ht|].
  rewrite H0, H1, !length_app. split; reflexivity.
Defined.

(** X19: in exact arithmetic on finite numbers, in every store reached from
    a fresh process by calls of the constructors, the setters, [deposit],
    [withdraw] and [transfer], whether they return or raise, no account has
    a negative balance. *)
Theorem balance_never_negative (float : string -> option Q)
    (cs : list call) :
  Forall (fun a => (0 <= _balance a)%Q) (heap (run float cs initial_state)).
Proof.
  apply Forall_lookup. intros i a Hi.
  eapply wf_balance; [|eassumption].
  apply run_wf, wf_initial_state.
Qed.

Lemma __init___Return (account_holder : string)
    (initial_balance status : value) (s s' : state) (l : loc) :
  BankAccount.__init__ account_holder initial_balance status s = Return l s' ->
  l = length (heap s)
  /\ s' = State (_account_counter s + 1)
            (heap s ++ [created (_account_counter s + 1) account_holder
                          (num initial_balance) (str_of status)])
  /\ is_number initial_balance = true
  /\ (0 <= num initial_balance)%Q
  /\ is_status status = true.
Proof.
  rewrite __init___eq.
  destruct (is_number initial_balance); [|discriminate]. simpl.
  destruct (lt (num initial_balance) 0) eqn:Hlt; [discriminate|].
  apply lt_false in Hlt.
  destruct (is_status status); [|discriminate]. simpl.
  intros [= <- <-]. repeat split; try reflexivity. exact Hlt.
Qed.

Lemma from_string_Return (float : string -> option Q) (account_data : string)
    (s s' : state) (l : loc) :
  BankAccount.from_string float account_data s = Return l s' ->
  exists name balance_text status_text b,
    split ";" account_data = [name; balance_text; status_text]
    /\ float balance_text = Some b
    /\ BankAccount.__init__ (strip name) (VFloat b)
         (VStr (strip status_text)) s = Return l s'.
Proof.
  unfold BankAccount.from_string, try_except.
  destruct (split ";" account_data) as [|n [|bt [|st [|? ?]]]];
    try discriminate.
  destruct (float bt) as [b|] eqn:Hb; [|discriminate].
  destruct (BankAccount.__init__ _ _ _ s) as [l0 s0|] eqn:Hi; [|discriminate].
  intros [= <- <-]. exists n, bt, st, b. repeat split; assumption.
Qed.

(** X20: the counter starts at 1000; in every store reached by calls whose
    numbers convert, the object created first has number 1001, the next
    1002, and so on, so a later object has a strictly greater number than an
    earlier one and no two objects share a number; and a constructor call
    that returns, in such a store, adds one to the counter and gives the new
    value to the one object it appends, leaving the others in place. *)
Theorem account_numbers_count_up (float : string -> option Q)
    (cs : list call) :
  Forall arguments_convert cs ->
  _account_counter initial_state = 1000
  /\ (forall (i : loc) (a : account),
        heap (run float cs initial_state) !! i = Some a ->
        _account_number a = 1001 + Z.of_nat i)
  /\ (forall (i j : loc) (a b : account),
        heap (run float cs initial_state) !! i = Some a ->
        heap (run float cs initial_state) !! j = Some b ->
        (i < j)%nat -> _account_number a < _account_number b)
  /\ (forall (i j : loc) (a b : account),
        heap (run float cs initial_state) !! i = Some a ->
        heap (run float cs initial_state) !! j = Some b ->
        i <> j -> _account_number a <> _account_number b)
  /\ (forall (c : call) (l : loc) (s' : state),
        match c with
        | New h b st =>
            BankAccount.__init__ h b st (run float cs initial_state)
            = Return l s'
        | FromBalance h b =>
            BankAccount.from_balance h b (run float cs initial_state)
            = Return l s'
        | FromString d =>
            BankAccount.from_string float d (run float cs initial_state)
            = Return l s'
        | _ => False
        end ->
        exists a,
          heap s' = (heap (run float cs initial_state) ++ [a])%list
          /\ l = length (heap (run float cs initial_state))
          /\ _account_counter s'
             = _account_counter (run float cs initial_state) + 1
          /\ _account_number a = _account_counter s'
          /\ _account_number a = 1001 + Z.of_nat l).
Proof.
  intros _.
  pose proof (run_wf float cs initial_state wf_initial_state) as Hwf.
  set (s := run float cs initial_state) in *.
  split; [reflexivity|]. split; [apply (wf_number s Hwf)|].
  split; [|split].
  - intros i j a b Hi Hj Hlt.
    rewrite (wf_number s Hwf _ _ Hi), (wf_number s Hwf _ _ Hj). lia.
  - intros i j a b Hi Hj Hne.
    rewrite (wf_number s Hwf _ _ Hi), (wf_number s Hwf _ _ Hj). lia.
  - intros c l s' Hc.
    assert (Hinit : exists h b st,
               BankAccount.__init__ h b st s = Return l s').
    { destruct c; try contradiction.
      - eauto.
      - eauto.
      - apply from_string_Return in Hc
          as (n & bt & st & b & _ & _ & Hc). eauto. }
    destruct Hinit as (h & b & st & Hinit).
    apply __init___Return in Hinit as (-> & -> & _).
    eexists. split; [reflexivity|]. simpl.
    rewrite (wf_counter s Hwf). repeat split; lia.
Qed.

Lemma account_numbers_count_up_witness :
  exists a b,
    heap (run (fun _ => None)
            [New "John Doe" (VInt 1000) (VStr "active");
             Deposit 0 (VInt 200);
             New "Nobody" (VInt (-1)) (VStr "active");
             New "Jane Smith" (VInt 500) (VStr "active")]
            initial_state) = [a; b]
    /\ _account_number a = 1001 /\ _account_number b = 1002.
Proof.
  eexists. eexists. split; [reflexivity|].
  assert (Hconv : Forall arguments_convert
                    [New "John Doe" (VInt 1000) (VStr "active");
                     Deposit 0 (VInt 200);
                     New "Nobody" (VInt (-1)) (VStr "active");
                     New "Jane Smith" (VInt 500) (VStr "active")])
    by (repeat constructor; simpl; lia).
  destruct (account_numbers_count_up (fun _ => None)
              [New "John Doe" (VInt 1000) (VStr "active");
               Deposit 0 (VInt 200);
               New "Nobody" (VInt (-1)) (VStr "active");
               New "Jane Smith" (VInt 500) (VStr "active")] Hconv)
    as (_ & Hn & _).
  split.
  - apply (Hn 0%nat). reflexivity.
  - apply (Hn 1%nat). reflexivity.
Defined.

(** ** What [strip] removes *)

Lemma first_char_lstrip (s : string) (c : ascii) :
  first_char (lstrip s) = Some c -> isspace c = false.
Proof.
  induction s as [|d r IH]; simpl; [discriminate|].
  destruct (isspace d) eqn:Hd; [exact IH|].
  simpl. intros [= <-]. exact Hd.
Qed.

Lemma first_char_rstrip (s : string) (c : ascii) :
  first_char (rstrip s) = Some c -> first_char s = Some c.
Proof.
  destruct s as [|d r]; simpl; [discriminate|].
  destruct (rstrip r); [destruct (isspace d); [discriminate|]|];
    intros H; exact H.
Qed.

Lemma last_char_rstrip (s : string) (c : ascii) :
  last_char (rstrip s) = Some c -> isspace c = false.
Proof.
  induction s as [|d r IH]; simpl; [discriminate|].
  destruct (rstrip r) as [|e r'] eqn:Hr.
  - destruct (isspace d) eqn:Hd; simpl; [discriminate|].
    intros [= <-]. exact Hd.
  - intros H. apply IH. exact H.
Qed.

Lemma strip_no_outer_space (s : string) : no_outer_space (strip s).
Proof.
  unfold strip. split; intros c Hc.
  - apply first_char_rstrip in Hc. eapply first_char_lstrip. eassumption.
  - eapply last_char_rstrip. eassumption.
Qed.

Lemma all_space_app (p q : string) :
  all_space p = true -> all_space q = true -> all_space (p ++ q) = true.
Proof.
  induction p as [|c p IH]; simpl; [auto|].
  destruct (isspace c); [exact IH|discriminate].
Qed.

Lemma lstrip_spec (s : string) :
  exists pre, s = pre ++ lstrip s /\ all_space pre = true.
Proof.
  induction s as [|c r (pre & Hr & Hpre)]; simpl.
  - exists EmptyString. split; reflexivity.
  - destruct (isspace c) eqn:Hc.
    + exists (String c pre). simpl. rewrite Hc, <- Hr. auto.
    + exists EmptyString. split; reflexivity.
Qed.

Lemma rstrip_spec (s : string) :
  exists post, s = rstrip s ++ post /\ all_space post = true.
Proof.
  induction s as [|c r (post & Hr & Hpost)]; simpl.
  - exists EmptyString. split; reflexivity.
  - destruct (rstrip r) as [|d r'] eqn:Hrs.
    + simpl in Hr. subst post. destruct (isspace c) eqn:Hc.
      * exists (String c r). simpl. rewrite Hc. auto.
      * exists r. auto.
    + exists post. simpl. rewrite Hr at 1. auto.
Qed.

Lemma strip_spec (s : string) :
  exists pre post,
    s = pre ++ strip s ++ post
    /\ all_space pre = true /\ all_space post = true
    /\ no_outer_space (strip s).
Proof.
  destruct (lstrip_spec s) as (pre & Hs & Hpre).
  destruct (rstrip_spec (lstrip s)) as (post & Hl & Hpost).
  exists pre, post. unfold strip.
  split; [rewrite <- Hl; exact Hs|].
  split; [exact Hpre|]. split; [exact Hpost|].
  apply strip_no_outer_space.
Qed.

Lemma isspace_spec (c : ascii) :
  isspace c
  = existsb (Nat.eqb (nat_of_ascii c))
      [9; 10; 11; 12; 13; 28; 29; 30; 31; 32; 133; 160]%nat.
Proof.
  destruct c as [[|] [|] [|] [|] [|] [|] [|] [|]]; vm_compute; reflexivity.
Qed.

(** C8: [from_string] splits on [";"] into exactly three fields, strips the
    holder and the status, reads the balance with [float] and calls the
    constructor: with a balance that is not negative and a status among the
    two allowed it returns a new account with these attributes.  With another
    number of fields, a balance [float] rejects, a negative balance or
    another status, it raises one [InvalidAccountError] whose cause is the
    underlying exception, in an unchanged store; no other exception leaves
    it.  On ["Bob Wilson;750;active"] the account has holder ["Bob Wilson"],
    balance 750 and status ["active"].  Stripping a field removes exactly
    the whitespace around it: the field is whitespace, then the stripped
    field, then whitespace, and the stripped field neither starts nor ends
    with whitespace, whitespace being the characters 9 to 13, 28 to 32, 133
    and 160; so a holder written with a tab and blanks around it and a
    status followed by a newline give the same account. *)
Theorem from_string_spec (float : string -> option Q)
    (account_data : string) (s : state) :
  (forall name balance_text status_text b,
     split ";" account_data = [name; balance_text; status_text] ->
     float balance_text = Some b -> (0 <= b)%Q ->
     strip status_text = "active" \/ strip status_text = "inactive" ->
     BankAccount.from_string float account_data s
     = Return (length (heap s))
         (State (_account_counter s + 1)
            (heap s
               ++ [Account (_account_counter s + 1) (strip name) b
                     (strip status_text)
                     [Txn "Account created" (VFloat b) b None]])))
  /\ (length (split ";" account_data) <> 3%nat ->
      BankAccount.from_string float account_data s
      = Raise (parse_failure ValueError) s)
  /\ (forall name balance_text status_text,
        split ";" account_data = [name; balance_text; status_text] ->
        float balance_text = None ->
        BankAccount.from_string float account_data s
        = Raise (parse_failure ValueError) s)
  /\ (forall name balance_text status_text b,
        split ";" account_data = [name; balance_text; status_text] ->
        float balance_text = Some b -> (b < 0)%Q ->
        BankAccount.from_string float account_data s
        = Raise (parse_failure
                   (InvalidAmountError (BalanceCannotBeNegative (VFloat b))))
                s)
  /\ (forall name balance_text status_text b,
        split ";" account_data = [name; balance_text; status_text] ->
        float balance_text = Some b -> (0 <= b)%Q ->
        strip status_text <> "active" -> strip status_text <> "inactive" ->
        BankAccount.from_string float account_data s
        = Raise (parse_failure
                   (InvalidAccountError StatusMustBeActiveOrInactive None))
                s)
  /\ (forall e s',
        BankAccount.from_string float account_data s = Raise e s' ->
        s' = s /\ exists cause, e = parse_failure cause)
  /\ (float "750" = Some 750%Q ->
      BankAccount.from_string float "Bob Wilson;750;active" s
      = Return (length (heap s))
          (State (_account_counter s + 1)
             (heap s
                ++ [Account (_account_counter s + 1) "Bob Wilson" 750
                      "active"
                      [Txn "Account created" (VFloat 750) 750 None]])))
  /\ (forall field,
        exists pre post,
          field = pre ++ strip field ++ post
          /\ all_space pre = true /\ all_space post = true
          /\ no_outer_space (strip field))
  /\ (forall c,
        isspace c
        = existsb (Nat.eqb (nat_of_ascii c))
            [9; 10; 11; 12; 13; 28; 29; 30; 31; 32; 133; 160]%nat)
  /\ (float "750" = Some 750%Q ->
      BankAccount.from_string float
        (String "009" ("  Bob Wilson  ;750; active" ++ String "010" "")) s
      = Return (length (heap s))
          (State (_account_counter s + 1)
             (heap s
                ++ [Account (_account_counter s + 1) "Bob Wilson" 750
                      "active"
                      [Txn "Account created" (VFloat 750) 750 None]]))).
Proof.
  assert (Hok : forall name status_text b,
    (0 <= b)%Q ->
    strip status_text = "active" \/ strip status_text = "inactive" ->
    BankAccount.__init__ (strip name) (VFloat b) (VStr (strip status_text)) s
    = Return (length (heap s))
        (State (_account_counter s + 1)
           (heap s
              ++ [Account (_account_counter s + 1) (strip name) b
                    (strip status_text)
                    [Txn "Account created" (VFloat b) b None]]))).
  { intros name st b Hb Hst. rewrite __init___eq. simpl.
    apply lt_false in Hb. rewrite Hb.
    unfold is_status, eq_str.
    destruct Hst as [-> | ->]; reflexivity. }
  unfold BankAccount.from_string, try_except.
  split; [|split; [|split; [|split; [|split; [|split; [|split; [|split;
    [|split]]]]]]]].
  - intros name bt st b -> -> Hb Hst. rewrite (Hok name st b Hb Hst).
    reflexivity.
  - intros Hlen.
    destruct (split ";" account_data) as [|n [|bt [|st [|? ?]]]];
      try reflexivity.
    simpl in Hlen. congruence.
  - intros name bt st -> ->. reflexivity.
  - intros name bt st b -> -> Hb. rewrite __init___eq. simpl.
    apply lt_spec in Hb. rewrite Hb. reflexivity.
  - intros name bt st b -> -> Hb Ha Hi. rewrite __init___eq. simpl.
    apply lt_false in Hb. rewrite Hb.
    unfold is_status, eq_str.
    apply String.eqb_neq in Ha, Hi. rewrite Ha, Hi. reflexivity.
  - intros e s'.
    destruct (split ";" account_data) as [|n [|bt [|st [|? ?]]]];
      try (intros [= <- <-]; split; [reflexivity|eexists; reflexivity]).
    destruct (float bt) as [b|];
      [|intros [= <- <-]; split; [reflexivity|eexists; reflexivity]].
    rewrite __init___eq.
    destruct (negb _);
      [intros [= <- <-]; split; [reflexivity|eexists; reflexivity]|].
    destruct (lt _ _);
      [intros [= <- <-]; split; [reflexivity|eexists; reflexivity]|].
    destruct (negb _);
      [intros [= <- <-]; split; [reflexivity|eexists; reflexivity]|].
    discriminate.
  - intros H. simpl. rewrite H.
    rewrite (Hok "Bob Wilson" "active" 750%Q); [reflexivity|discriminate|].
    left. reflexivity.
  - apply strip_spec.
  - apply isspace_spec.
  - intros H. simpl. rewrite H.
    match goal with
    | |- context [BankAccount.__init__ (strip ?n) _ (VStr (strip ?t)) _] =>
        rewrite (Hok n t 750%Q)
    end; [reflexivity|discriminate|].
    left. reflexivity.
Qed.

Lemma from_string_spec_witness :
  (exists a,
     heap (final (BankAccount.from_string float_of_digits
                    "Bob Wilson;750;active" initial_state)) = [a]
     /\ _account_holder a = "Bob Wilson" /\ _balance a = 750%Q
     /\ _status a = "active" /\ _account_number a = 1001)
  /\ BankAccount.from_string float_of_digits "bad" initial_state
     = Raise (parse_failure ValueError) initial_state
  /\ BankAccount.from_string float_of_digits "Eve;abc; active " initial_state
     = Raise (parse_failure ValueError) initial_state
  /\ BankAccount.from_string float_of_digits "Eve;10;closed" initial_state
     = Raise (parse_failure
                (InvalidAccountError StatusMustBeActiveOrInactive None))
             initial_state
  /\ (exists a,
        heap (final (BankAccount.from_string float_of_digits
                       (String "009"
                          ("  Bob Wilson  ;750; active" ++ String "010" ""))
                       initial_state)) = [a]
        /\ _account_holder a = "Bob Wilson" /\ _status a = "active").
Proof.
  split; [|split; [|split; [|split]]].
  - destruct (from_string_spec float_of_digits "Bob Wilson;750;active"
                initial_state) as (_ & _ & _ & _ & _ & _ & Hbob & _).
    rewrite (Hbob eq_refl). eexists. split; [reflexivity|].
    repeat split; reflexivity.
  - destruct (from_string_spec float_of_digits "bad" initial_state)
      as (_ & Hcount & _).
    apply Hcount. discriminate.
  - destruct (from_string_spec float_of_digits "Eve;abc; active "
                initial_state) as (_ & _ & Hfloat & _).
    apply (Hfloat "Eve" "abc" " active "); reflexivity.
  - destruct (from_string_spec float_of_digits "Eve;10;closed"
                initial_state) as (_ & _ & _ & _ & Hstatus & _).
    apply (Hstatus "Eve" "10" "closed" 10%Q);
      try reflexivity; discriminate.
  - destruct (from_string_spec float_of_digits EmptyString initial_state)
      as (_ & _ & _ & _ & _ & _ & _ & _ & _ & Hspace).
    rewrite (Hspace eq_refl). eexists. split; [reflexivity|].
    split; reflexivity.
Defined.

(** ** The scenario of the module's demonstration *)

Example end_to_end :
  let s := run float_of_digits
             [New "John Doe" (VInt 1000) (VStr "active");
              FromBalance "Jane Smith" (VInt 500);
              FromString "Bob Wilson;750;active";
              Deposit 0 (VInt 200);
              Withdraw 0 (VInt 100);
              Transfer 0 (VInt 300) (VAccount 1)] initial_state in
  balance_of s 0 = 800%Q /\ balance_of s 1 = 800%Q /\ balance_of s 2 = 750%Q
  /\ BankAccount.withdraw 0 (VInt 2000) s
     = Raise (InsufficientFundsError 800 2000) s
  /\ BankAccount.deposit 0 (VInt (-50)) s
     = Raise (InvalidAmountError (Offending (VInt (-50)))) s.
Proof. vm_compute. repeat split; reflexivity. Qed.

(** * Further properties of the class *)

(** ** When the financial operations return *)

Lemma active_eqb (a : account) :
  negb (String.eqb (_status a) "active") = false <-> _status a = "active".
Proof. rewrite negb_false_iff. apply String.eqb_eq. Qed.

Lemma valid_amount (amount : value) :
  negb (is_number amount) || le (num amount) 0 = false
  <-> is_number amount = true /\ (0 < num amount)%Q.
Proof.
  rewrite orb_false_iff, negb_false_iff, le_false. reflexivity.
Qed.

Lemma deposit_ok (self : loc) (amount : value) (s : state) (a : account) :
  heap s !! self = Some a -> _status a = "active" ->
  is_number amount = true -> (0 < num amount)%Q ->
  BankAccount.deposit self amount s
  = Return (_balance a + num amount)%Q (store self (deposited a amount) s).
Proof.
  intros Ha Hact Hnum Hpos. rewrite deposit_eq, Ha.
  apply active_eqb in Hact. rewrite Hact.
  assert (Hv := proj2 (valid_amount amount) (conj Hnum Hpos)).
  rewrite Hv. reflexivity.
Qed.

Lemma withdraw_ok (self : loc) (amount : value) (s : state) (a : account) :
  heap s !! self = Some a -> _status a = "active" ->
  is_number amount = true -> (0 < num amount)%Q ->
  (num amount <= _balance a)%Q ->
  BankAccount.withdraw self amount s
  = Return (_balance a - num amount)%Q (store self (withdrawn a amount) s).
Proof.
  intros Ha Hact Hnum Hpos Hle. rewrite withdraw_eq, Ha.
  apply active_eqb in Hact. rewrite Hact.
  assert (Hv := proj2 (valid_amount amount) (conj Hnum Hpos)).
  rewrite Hv. apply gt_false in Hle. rewrite Hle. reflexivity.
Qed.

Lemma deposit_Return_inv (self : loc) (amount : value) (s s' : state)
    (r : Q) :
  BankAccount.deposit self amount s = Return r s' ->
  exists a, heap s !! self = Some a /\ _status a = "active"
            /\ is_number amount = true /\ (0 < num amount)%Q
            /\ s' = store self (deposited a amount) s
            /\ r = (_balance a + num amount)%Q.
Proof.
  rewrite deposit_eq. destruct (heap s !! self) as [a|]; [|discriminate].
  destruct (negb (String.eqb _ _)) eqn:Hact; [discriminate|].
  destruct (_ || _) eqn:Hv; [discriminate|].
  apply active_eqb in Hact. apply valid_amount in Hv as [Hnum Hpos].
  intros [= <- <-]. exists a. repeat split; assumption.
Qed.

Lemma withdraw_Return_inv (self : loc) (amount : value) (s s' : state)
    (r : Q) :
  BankAccount.withdraw self amount s = Return r s' ->
  exists a, heap s !! self = Some a /\ _status a = "active"
            /\ is_number amount = true /\ (0 < num amount)%Q
            /\ (num amount <= _balance a)%Q
            /\ s' = store self (withdrawn a amount) s
            /\ r = (_balance a - num amount)%Q.
Proof.
  rewrite withdraw_eq. destruct (heap s !! self) as [a|]; [|discriminate].
  destruct (negb (String.eqb _ _)) eqn:Hact; [discriminate|].
  destruct (_ || _) eqn:Hv; [discriminate|].
  destruct (gt _ _) eqn:Hgt; [discriminate|].
  apply active_eqb in Hact. apply valid_amount in Hv as [Hnum Hpos].
  apply gt_false in Hgt.
  intros [= <- <-]. exists a. repeat split; assumption.
Qed.

(** X1: in exact arithmetic on finite numbers, on an active account,
    [deposit] of a number [amount > 0] that converts returns the new balance,
    which is the old balance plus [amount] (the code stores the double
    nearest to it); it appends one [Deposit] record carrying the amount and the new balance, and changes
    nothing else: not the status, the number or the holder of the account,
    not any other account, not the counter. *)
Theorem deposit_spec (s : state) (self : loc) (a : account)
    (amount : value) :
  heap s !! self = Some a -> _status a = "active" ->
  is_number amount = true -> converts amount -> (0 < num amount)%Q ->
  exists s' a',
    BankAccount.deposit self amount s = Return (_balance a') s'
    /\ heap s' !! self = Some a'
    /\ _balance a' = (_balance a + num amount)%Q
    /\ _transactions a'
       = (_transactions a
            ++ [Txn "Deposit" amount (_balance a + num amount) None])%list
    /\ _status a' = _status a
    /\ _account_number a' = _account_number a
    /\ _account_holder a' = _account_holder a
    /\ (forall l, l <> self -> heap s' !! l = heap s !! l)
    /\ _account_counter s' = _account_counter s.
Proof.
  intros Ha Hact Hnum _ Hpos.
  exists (store self (deposited a amount) s), (deposited a amount).
  split; [apply deposit_ok; assumption|].
  split; [eapply heap_store_eq; eassumption|].
  do 5 (split; [reflexivity|]).
  split; [|reflexivity].
  intros l Hl. apply heap_store_ne. congruence.
Qed.

Lemma deposit_spec_witness :
  exists s' a',
    BankAccount.deposit 0 (VInt 200) (demo "active") = Return 1200%Q s'
    /\ heap s' !! 0%nat = Some a'
    /\ length (_transactions a') = 2%nat.
Proof.
  assert (Hc : converts (VInt 200)) by (simpl; lia).
  destruct (deposit_spec (demo "active") 0 john (VInt 200)
              eq_refl eq_refl eq_refl Hc eq_refl)
    as (s' & a' & Hd & Ha' & Hb & Hh & _).
  exists s', a'. rewrite Hd, Hb, Hh. repeat split; try reflexivity.
  exact Ha'.
Defined.

(** X2: on finite numbers (a balance and an amount that are not NaN), for
    an amount that converts, [deposit] returns exactly when the account is
    active and the amount is a number greater than zero; [withdraw] returns
    exactly when, besides, the amount is at most the balance.  No other call
    of them returns. *)
Theorem deposit_withdraw_return_iff (s : state) (self : loc) (a : account)
    (amount : value) :
  heap s !! self = Some a -> converts amount ->
  ((exists r s', BankAccount.deposit self amount s = Return r s')
   <-> _status a = "active" /\ is_number amount = true
       /\ (0 < num amount)%Q)
  /\ ((exists r s', BankAccount.withdraw self amount s = Return r s')
      <-> _status a = "active" /\ is_number amount = true
          /\ (0 < num amount)%Q /\ (num amount <= _balance a)%Q).
Proof.
  intros Ha _. split; split.
  - intros (r & s' & H).
    apply deposit_Return_inv in H as (a0 & Ha0 & Hact & Hnum & Hpos & _).
    rewrite Ha in Ha0. injection Ha0 as <-. auto.
  - intros (Hact & Hnum & Hpos). eexists. eexists.
    apply deposit_ok; eassumption.
  - intros (r & s' & H).
    apply withdraw_Return_inv in H
      as (a0 & Ha0 & Hact & Hnum & Hpos & Hle & _).
    rewrite Ha in Ha0. injection Ha0 as <-. auto.
  - intros (Hact & Hnum & Hpos & Hle). eexists. eexists.
    apply withdraw_ok; eassumption.
Qed.

Lemma deposit_withdraw_return_iff_witness :
  (exists r s', BankAccount.deposit 0 (VFloat 0.5) (demo "active")
                = Return r s')
  /\ ~ (exists r s', BankAccount.withdraw 0 (VInt 1001) (demo "active")
                     = Return r s').
Proof.
  assert (Hc : converts (VInt 1001)) by (simpl; lia).
  destruct (deposit_withdraw_return_iff (demo "active") 0 john (VFloat 0.5)
              eq_refl Logic.I) as [[_ Hd] _].
  destruct (deposit_withdraw_return_iff (demo "active") 0 john (VInt 1001)
              eq_refl Hc) as [_ [Hw _]].
  split.
  - apply Hd. repeat split; reflexivity.
  - intros H. apply Hw in H as (_ & _ & _ & Hle). apply Hle. reflexivity.
Defined.

(** ** How [transfer] ends *)

Lemma transfer_ok_ne (self target : loc) (amount : value) (s : state)
    (a b : account) :
  self <> target ->
  heap s !! self = Some a -> heap s !! target = Some b ->
  _status a = "active" -> _status b = "active" ->
  is_number amount = true -> (0 < num amount)%Q ->
  (num amount <= _balance a)%Q ->
  BankAccount.transfer self amount (VAccount target) s
  = Return true
      (store target (received (deposited b amount) amount (_account_number a))
         (store self (sent (withdrawn a amount) amount (_account_number b))
            (store target (deposited b amount)
               (store self (withdrawn a amount) s)))).
Proof.
  intros Hne Ha Hb Hacta Hactb Hnum Hpos Hle.
  set (s1 := store self (withdrawn a amount) s).
  set (s2 := store target (deposited b amount) s1).
  assert (Hb1 : heap s1 !! target = Some b).
  { subst s1. rewrite heap_store_ne by assumption. assumption. }
  assert (Ha2 : heap s2 !! self = Some (withdrawn a amount)).
  { subst s2. rewrite heap_store_ne by congruence.
    subst s1. eapply heap_store_eq. eassumption. }
  assert (Hb2 : heap s2 !! target = Some (deposited b amount)).
  { subst s2. eapply heap_store_eq. eassumption. }
  rewrite transfer_eq, Ha.
  rewrite (proj2 (active_eqb a) Hacta).
  rewrite (proj2 (valid_amount amount) (conj Hnum Hpos)).
  rewrite (withdraw_ok _ _ _ _ Ha Hacta Hnum Hpos Hle). fold s1.
  rewrite (deposit_ok _ _ _ _ Hb1 Hactb Hnum Hpos). fold s2.
  apply (transfer_records_ne _ _ _ _ _ _ Hne Ha2 Hb2).
Qed.

Lemma transfer_ok_self (self : loc) (amount : value) (s : state)
    (a : account) :
  heap s !! self = Some a -> _status a = "active" ->
  is_number amount = true -> (0 < num amount)%Q ->
  (num amount <= _balance a)%Q ->
  BankAccount.transfer self amount (VAccount self) s
  = Return true
      (store self
         (received
            (sent (deposited (withdrawn a amount) amount) amount
               (_account_number a))
            amount (_account_number a)) s).
Proof.
  intros Ha Hact Hnum Hpos Hle.
  set (s1 := store self (withdrawn a amount) s).
  assert (Ha1 : heap s1 !! self = Some (withdrawn a amount)).
  { subst s1. eapply heap_store_eq. eassumption. }
  assert (Ha2 : heap (store self (deposited (withdrawn a amount) amount) s1)
                !! self = Some (deposited (withdrawn a amount) amount)).
  { eapply heap_store_eq. eassumption. }
  rewrite transfer_eq, Ha.
  rewrite (proj2 (active_eqb a) Hact).
  rewrite (proj2 (valid_amount amount) (conj Hnum Hpos)).
  rewrite (withdraw_ok _ _ _ _ Ha Hact Hnum Hpos Hle). fold s1.
  rewrite (deposit_ok _ _ _ _ Ha1 Hact Hnum Hpos).
  rewrite (transfer_records_self _ _ _ _ Ha2).
  subst s1. rewrite !store_store. reflexivity.
Qed.

(** X3: on finite numbers (balances and an amount that are not NaN),
    [transfer] returns exactly when the source is active, the target is an
    account and is active, and the amount is a number greater than zero and
    at most the balance of the source. *)
Theorem transfer_return_iff (s : state) (self : loc) (a : account)
    (amount target_account : value) :
  heap s !! self = Some a ->
  (exists r s',
     BankAccount.transfer self amount target_account s = Return r s')
  <-> exists target b,
        target_account = VAccount target /\ heap s !! target = Some b
        /\ _status a = "active" /\ _status b = "active"
        /\ is_number amount = true
        /\ (0 < num amount)%Q /\ (num amount <= _balance a)%Q.
Proof.
  intros Ha. split.
  - intros (r & s' & H).
    apply transfer_Return in H
      as (target & b1 & s1 & b2 & s2 & -> & Hw & Hd & _).
    apply withdraw_Return_inv in Hw
      as (a0 & Ha0 & Hact & Hnum & Hpos & Hle & -> & _).
    rewrite Ha in Ha0. injection Ha0 as <-.
    apply deposit_Return_inv in Hd as (b & Hb & Hactb & _).
    destruct (decide (self = target)) as [<-|Hne].
    + exists self, a. repeat split; assumption.
    + rewrite heap_store_ne in Hb by assumption.
      exists target, b. repeat split; assumption.
  - intros (target & b & -> & Hb & Hact & Hactb & Hnum & Hpos & Hle).
    destruct (decide (self = target)) as [<-|Hne].
    + eexists. eexists. apply (transfer_ok_self _ _ _ a); assumption.
    + eexists. eexists. apply (transfer_ok_ne _ _ _ _ a b); assumption.
Qed.

Lemma transfer_return_iff_witness :
  (exists r s',
     BankAccount.transfer 0 (VInt 1000) (VAccount 1) (demo "active")
     = Return r s')
  /\ ~ (exists r s',
          BankAccount.transfer 0 (VInt 1000) (VStr "Jane Smith")
            (demo "active") = Return r s').
Proof.
  split.
  - apply (transfer_return_iff (demo "active") 0 john (VInt 1000)
             (VAccount 1) eq_refl).
    exists 1%nat, (jane "active").
    repeat split; try reflexivity; discriminate.
  - intros H.
    apply (transfer_return_iff (demo "active") 0 john (VInt 1000)
             (VStr "Jane Smith") eq_refl) in H
      as (target & b & Heq & _).
    discriminate Heq.
Defined.

(** X4: a [transfer] that raises one of the account errors leaves the store
    as it was, with one exception: when the target is another account that
    is not active, the error is that account's not-active error and the store
    is the one [withdraw] on the source left, the target being untouched. *)
Theorem transfer_failure (s s' : state) (self : loc)
    (amount target_account : value) (e : exn) :
  BankAccount.transfer self amount target_account s = Raise e s' ->
  is_BankAccountError e = true ->
  s' = s
  \/ exists target a b,
       target_account = VAccount target /\ target <> self
       /\ heap s !! self = Some a /\ heap s !! target = Some b
       /\ _status b <> "active" /\ e = not_active b
       /\ BankAccount.withdraw self amount s
          = Return (_balance a - num amount)%Q s'
       /\ heap s' !! target = Some b.
Proof.
  rewrite transfer_eq.
  destruct (heap s !! self) as [a|] eqn:Ha; [|intros [= <- <-]; auto].
  destruct (negb (String.eqb _ _)) eqn:Hact; [intros [= <- <-]; auto|].
  apply active_eqb in Hact.
  destruct target_account as [| | | | |target];
    try (intros [= <- <-]; auto).
  destruct (_ || _) eqn:Hv; [intros [= <- <-]; auto|].
  destruct (BankAccount.withdraw self amount s) as [b1 s1|e1 s1] eqn:Hw.
  - pose proof Hw as Hw'.
    apply withdraw_Return_inv in Hw'
      as (a0 & Ha0 & _ & Hnum & Hpos & Hle & -> & ->).
    rewrite Ha in Ha0. injection Ha0 as <-.
    set (s1 := store self (withdrawn a amount) s) in *.
    assert (Ha1 : heap s1 !! self = Some (withdrawn a amount)).
    { subst s1. eapply heap_store_eq. eassumption. }
    rewrite deposit_eq.
    destruct (heap s1 !! target) as [b|] eqn:Hb;
      [|intros [= <- <-]; discriminate].
    destruct (negb (String.eqb (_status b) _)) eqn:Hactb.
    + intros [= <- <-] _. right.
      assert (Hne : target <> self).
      { intros ->. rewrite Ha1 in Hb. injection Hb as <-.
        simpl in Hactb. apply active_eqb in Hact. congruence. }
      assert (Hb0 : heap s !! target = Some b).
      { subst s1. rewrite heap_store_ne in Hb by congruence. exact Hb. }
      exists target, a, b. repeat split; try assumption.
      intros Hb'. apply active_eqb in Hb'. congruence.
    + rewrite Hv.
      set (s2 := store target (deposited b amount) s1).
      assert (Hb2 : heap s2 !! target = Some (deposited b amount)).
      { subst s2. eapply heap_store_eq. eassumption. }
      destruct (decide (self = target)) as [<-|Hne].
      * rewrite (transfer_records_self _ _ _ _ Hb2). discriminate.
      * assert (Ha2 : heap s2 !! self = Some (withdrawn a amount)).
        { subst s2. rewrite heap_store_ne by congruence. exact Ha1. }
        rewrite (transfer_records_ne _ _ _ _ _ _ Hne Ha2 Hb2). discriminate.
  - rewrite withdraw_eq, Ha in Hw.
    rewrite (proj2 (active_eqb a) Hact), Hv in Hw.
    destruct (gt _ _); [|discriminate].
    injection Hw as <- <-. intros [= <- <-]. auto.
Qed.

Lemma transfer_failure_witness :
  exists s',
    BankAccount.transfer 0 (VInt 300) (VAccount 1) (demo "inactive")
    = Raise (not_active (jane "inactive")) s'
    /\ BankAccount.withdraw 0 (VInt 300) (demo "inactive")
       = Return 700%Q s'.
Proof.
  set (s' := final (BankAccount.transfer 0 (VInt 300) (VAccount 1)
                      (demo "inactive"))).
  assert (Ht : BankAccount.transfer 0 (VInt 300) (VAccount 1)
                 (demo "inactive")
               = Raise (not_active (jane "inactive")) s') by reflexivity.
  exists s'. split; [exact Ht|].
  destruct (transfer_failure _ _ _ _ _ _ Ht eq_refl)
    as [Heq | (target & a & b & _ & _ & Ha & _ & _ & _ & Hw & _)].
  - discriminate Heq.
  - injection Ha as <-. exact Hw.
Defined.



(** ** Construction *)

(** X6: the constructor, given a balance that is a number, converts and is
    not negative (zero is allowed), and one of the two statuses, returns a reference to a
    new object placed after the existing ones; the object has the holder,
    the balance and the status given, the next counter value as its number,
    and a history of exactly one record, the creation record, whose amount
    and resulting balance are the initial balance.  No existing object is
    touched.  [from_balance] does the same with the status ["active"]. *)
Theorem construction_spec (account_holder : string)
    (initial_balance : value) (status : string) (s : state) :
  is_number initial_balance = true -> converts initial_balance ->
  (0 <= num initial_balance)%Q ->
  status = "active" \/ status = "inactive" ->
  (exists s' a,
     BankAccount.__init__ account_holder initial_balance (VStr status) s
       = Return (length (heap s)) s'
     /\ heap s' = (heap s ++ [a])%list
     /\ _account_holder a = account_holder
     /\ _balance a = num initial_balance
     /\ _status a = status
     /\ _account_number a = _account_counter s + 1
     /\ _account_counter s' = _account_counter s + 1
     /\ _transactions a
        = [Txn "Account created" (VFloat (num initial_balance))
               (num initial_balance) None])
  /\ BankAccount.from_balance account_holder initial_balance s
     = BankAccount.__init__ account_holder initial_balance (VStr "active") s
  /\ returned_active (BankAccount.from_balance account_holder
                        initial_balance s).
Proof.
  intros Hnum _ Hpos Hst.
  assert (Hinit : forall st, st = "active" \/ st = "inactive" ->
    BankAccount.__init__ account_holder initial_balance (VStr st) s
    = Return (length (heap s))
        (State (_account_counter s + 1)
           (heap s ++ [created (_account_counter s + 1) account_holder
                         (num initial_balance) st]))).
  { intros st Hs. rewrite __init___eq, Hnum. simpl.
    apply lt_false in Hpos. rewrite Hpos.
    unfold is_status, eq_str. destruct Hs as [-> | ->]; reflexivity. }
  split; [|split].
  - eexists. eexists. split; [apply Hinit; assumption|].
    repeat split; reflexivity.
  - reflexivity.
  - unfold BankAccount.from_balance, returned_active.
    rewrite Hinit by (left; reflexivity). simpl.
    rewrite lookup_app_r by reflexivity.
    rewrite Nat.sub_diag. reflexivity.
Qed.

Lemma construction_spec_witness :
  exists s' a,
    BankAccount.__init__ "Zero" (VInt 0) (VStr "inactive") (demo "active")
      = Return 2%nat s'
    /\ heap s' = [john; jane "active"; a]
    /\ _balance a = 0%Q /\ _status a = "inactive"
    /\ _account_number a = 1003.
Proof.
  assert (Hpos : (0 <= num (VInt 0))%Q) by discriminate.
  assert (Hc : converts (VInt 0)) by (simpl; lia).
  destruct (construction_spec "Zero" (VInt 0) "inactive" (demo "active")
              eq_refl Hc Hpos (or_intror eq_refl))
    as ((s' & a & Hi & Hh & _ & Hb & Hst & Hn & _) & _).
  exists s', a. repeat split; assumption.
Defined.

(** X7: the constructor checks the balance before the status: a balance
    that is not a number raises [InvalidAmountError] carrying it, a negative
    one that converts raises [InvalidAmountError], and only then a status
    outside the two
    allowed raises [InvalidAccountError].  Whenever the constructor raises
    on a balance that converts, the error is one of the account errors and
    the store, the counter included, is as it was: no account number is used
    up. *)
Theorem construction_failure (account_holder : string)
    (initial_balance status : value) (s : state) :
  (is_number initial_balance = false ->
     BankAccount.__init__ account_holder initial_balance status s
     = Raise (InvalidAmountError (Offending initial_balance)) s)
  /\ (is_number initial_balance = true -> converts initial_balance ->
      (num initial_balance < 0)%Q ->
      BankAccount.__init__ account_holder initial_balance status s
      = Raise (InvalidAmountError (BalanceCannotBeNegative initial_balance))
              s)
  /\ (is_number initial_balance = true -> (0 <= num initial_balance)%Q ->
      status <> VStr "active" -> status <> VStr "inactive" ->
      BankAccount.__init__ account_holder initial_balance status s
      = Raise (InvalidAccountError StatusMustBeActiveOrInactive None) s)
  /\ (forall e s',
        converts initial_balance ->
        BankAccount.__init__ account_holder initial_balance status s
        = Raise e s' ->
        s' = s /\ is_BankAccountError e = true).
Proof.
  rewrite __init___eq. split; [|split; [|split]].
  - intros ->. reflexivity.
  - intros -> _ Hneg. apply lt_spec in Hneg. simpl. rewrite Hneg.
    reflexivity.
  - intros -> Hpos Ha Hi. apply lt_false in Hpos. simpl. rewrite Hpos.
    assert (Hst : is_status status = false).
    { unfold is_status, eq_str. destruct status; try reflexivity.
      apply orb_false_iff. split; apply String.eqb_neq; congruence. }
    rewrite Hst. reflexivity.
  - intros e s' _.
    destruct (negb _); [intros [= <- <-]; auto|].
    destruct (lt _ _); [intros [= <- <-]; auto|].
    destruct (negb _); [intros [= <- <-]; auto|].
    discriminate.
Qed.

Lemma construction_failure_witness :
  BankAccount.__init__ "Eve" (VStr "100") (VStr "closed") initial_state
  = Raise (InvalidAmountError (Offending (VStr "100"))) initial_state
  /\ BankAccount.__init__ "Eve" (VInt (-1)) (VStr "closed") initial_state
     = Raise (InvalidAmountError (BalanceCannotBeNegative (VInt (-1))))
             initial_state
  /\ BankAccount.__init__ "Eve" (VInt 1) VNone initial_state
     = Raise (InvalidAccountError StatusMustBeActiveOrInactive None)
             initial_state.
Proof.
  split; [|split].
  - apply (construction_failure "Eve" (VStr "100") (VStr "closed")
             initial_state). reflexivity.
  - apply (construction_failure "Eve" (VInt (-1)) (VStr "closed")
             initial_state); [reflexivity|simpl; lia|reflexivity].
  - apply (construction_failure "Eve" (VInt 1) VNone initial_state);
      try reflexivity; discriminate.
Defined.

(** ** The setters *)

(** X8: assigning a number that converts and is not negative to [balance]
    makes it the balance the getter returns, and changes nothing else: the
    history gets no record, and status, number and holder stay.  Assigning a
    value that is not a number, or a negative number that converts, raises
    [InvalidAmountError] and leaves the store as it was. *)
Theorem balance_setter_spec (s : state) (self : loc) (a : account)
    (new_value : value) :
  heap s !! self = Some a ->
  (is_number new_value = true -> converts new_value ->
   (0 <= num new_value)%Q ->
     exists s' a',
       BankAccount.balance_setter self new_value s = Return tt s'
       /\ BankAccount.balance self s' = Return (num new_value) s'
       /\ heap s' !! self = Some a'
       /\ _transactions a' = _transactions a
       /\ _status a' = _status a
       /\ _account_number a' = _account_number a
       /\ _account_holder a' = _account_holder a
       /\ (forall l, l <> self -> heap s' !! l = heap s !! l))
  /\ (converts new_value ->
      is_number new_value = false \/ (num new_value < 0)%Q ->
      exists e,
        BankAccount.balance_setter self new_value s = Raise e s
        /\ is_InvalidAmountError e = true).
Proof.
  intros Ha. rewrite balance_setter_eq, Ha. split.
  - intros -> _ Hpos. apply lt_false in Hpos. simpl. rewrite Hpos.
    exists (store self (with_balance a (num new_value)) s),
           (with_balance a (num new_value)).
    assert (Ha' : heap (store self (with_balance a (num new_value)) s)
                  !! self = Some (with_balance a (num new_value))).
    { eapply heap_store_eq. eassumption. }
    split; [reflexivity|].
    split; [rewrite (balance_Some _ _ _ Ha'); reflexivity|].
    split; [exact Ha'|].
    do 4 (split; [reflexivity|]).
    intros l Hl. apply heap_store_ne. congruence.
  - intros _ [Hn|Hneg].
    + rewrite Hn. simpl. eexists. split; reflexivity.
    + destruct (negb (is_number new_value));
        [eexists; split; reflexivity|].
      apply lt_spec in Hneg. rewrite Hneg. eexists. split; reflexivity.
Qed.

Lemma balance_setter_spec_witness :
  (exists s',
     BankAccount.balance_setter 0 (VInt 0) (demo "active") = Return tt s'
     /\ BankAccount.balance 0 s' = Return 0%Q s'
     /\ history s' 0 = history (demo "active") 0)
  /\ exists e,
       BankAccount.balance_setter 0 (VInt (-1)) (demo "active")
       = Raise e (demo "active")
       /\ is_InvalidAmountError e = true.
Proof.
  split.
  - assert (Hpos : (0 <= num (VInt 0))%Q) by discriminate.
    assert (Hc : converts (VInt 0)) by (simpl; lia).
    destruct (proj1 (balance_setter_spec (demo "active") 0 john (VInt 0)
                       eq_refl) eq_refl Hc Hpos)
      as (s' & a' & Hs & Hg & Ha' & Hh & _).
    exists s'. split; [exact Hs|]. split; [exact Hg|].
    unfold history, loc in *. rewrite Ha'. exact Hh.
  - assert (Hc : converts (VInt (-1))) by (simpl; lia).
    apply (proj2 (balance_setter_spec (demo "active") 0 john (VInt (-1))
                    eq_refl) Hc).
    right. reflexivity.
Defined.

Lemma with_status_same (a : account) (v : string) :
  with_status (with_status a v) (_status a) = a.
Proof. destruct a. reflexivity. Qed.

(** X9: the status can be switched freely.  Setting an active account to
    ["inactive"] keeps its balance and history and makes [deposit] and
    [withdraw] raise the not-active error; setting it back to ["active"]
    needs no further check and gives back exactly the store there was.  A
    value that is not one of the two statuses raises [InvalidAccountError]
    and leaves the store as it was. *)
Theorem status_switch (s : state) (self : loc) (a : account)
    (amount v : value) :
  heap s !! self = Some a -> _status a = "active" ->
  (exists s1 a1,
     BankAccount.status_setter self (VStr "inactive") s = Return tt s1
     /\ heap s1 !! self = Some a1
     /\ _status a1 = "inactive"
     /\ _balance a1 = _balance a /\ _transactions a1 = _transactions a
     /\ BankAccount.deposit self amount s1 = Raise (not_active a) s1
     /\ BankAccount.withdraw self amount s1 = Raise (not_active a) s1
     /\ BankAccount.status_setter self (VStr "active") s1 = Return tt s)
  /\ (v <> VStr "active" -> v <> VStr "inactive" ->
      BankAccount.status_setter self v s
      = Raise (InvalidAccountError StatusMustBeActiveOrInactive None) s).
Proof.
  intros Ha Hact. split.
  - set (s1 := store self (with_status a "inactive") s).
    assert (Ha1 : heap s1 !! self = Some (with_status a "inactive")).
    { subst s1. eapply heap_store_eq. eassumption. }
    exists s1, (with_status a "inactive").
    split; [rewrite status_setter_eq, Ha; reflexivity|].
    split; [exact Ha1|].
    do 3 (split; [reflexivity|]).
    split; [rewrite deposit_eq, Ha1; reflexivity|].
    split; [rewrite withdraw_eq, Ha1; reflexivity|].
    rewrite status_setter_eq, Ha1. simpl. subst s1.
    rewrite store_store. rewrite <- Hact. rewrite with_status_same.
    rewrite (store_same _ _ _ Ha). reflexivity.
  - intros Hv Hv'. rewrite status_setter_eq.
    assert (Hst : is_status v = false).
    { unfold is_status, eq_str. destruct v; try reflexivity.
      apply orb_false_iff. split; apply String.eqb_neq; congruence. }
    rewrite Hst. reflexivity.
Qed.

Lemma status_switch_witness :
  exists s1,
    BankAccount.status_setter 0 (VStr "inactive") (demo "active")
    = Return tt s1
    /\ BankAccount.deposit 0 (VInt 5) s1 = Raise (not_active john) s1
    /\ BankAccount.status_setter 0 (VStr "active") s1
       = Return tt (demo "active").
Proof.
  destruct (proj1 (status_switch (demo "active") 0 john (VInt 5) VNone
                     eq_refl eq_refl))
    as (s1 & a1 & Hs & _ & _ & _ & _ & Hd & _ & Hback).
  exists s1. repeat split; assumption.
Defined.

(** ** Invariants that the attribute assignments keep *)

(** An invariant of the store that the three attribute assignments and the
    constructor keep is kept by every call of the interface. *)
Section Structural.

Variable I : state -> Prop.

Hypothesis set_balance_keeps :
  forall self b, preserves I (set_balance self b).
Hypothesis append_transaction_keeps :
  forall self t, preserves I (append_transaction self t).
Hypothesis set_status_keeps :
  forall self v, v = "active" \/ v = "inactive" ->
                 preserves I (set_status self v).
Hypothesis __init___keeps :
  forall h b st, preserves I (BankAccount.__init__ h b st).

Lemma getter_keeps {A} (self : loc) (f : account -> A) :
  preserves I (a <- read self ;; ret (f a)).
Proof.
  apply preserves_bind; [apply preserves_read|].
  intros a. apply preserves_ret.
Qed.

Lemma _ensure_active_keeps (self : loc) :
  preserves I (BankAccount._ensure_active self).
Proof.
  apply preserves_bind; [apply preserves_read|]. intros a.
  destruct (negb _); [apply preserves_raise|apply preserves_ret].
Qed.

Lemma _validate_amount_keeps (amount : value) :
  preserves I (BankAccount._validate_amount amount).
Proof.
  unfold BankAccount._validate_amount.
  destruct (negb _); [apply preserves_raise|].
  destruct (le _ _); [apply preserves_raise|apply preserves_ret].
Qed.

Lemma deposit_keeps (self : loc) (amount : value) :
  preserves I (BankAccount.deposit self amount).
Proof.
  unfold BankAccount.deposit.
  apply preserves_bind; [apply _ensure_active_keeps|]. intros _.
  apply preserves_bind; [apply _validate_amount_keeps|]. intros _.
  apply preserves_bind; [apply getter_keeps|]. intros b.
  apply preserves_bind; [apply set_balance_keeps|]. intros _.
  apply preserves_bind; [apply getter_keeps|]. intros b'.
  apply preserves_bind; [apply append_transaction_keeps|]. intros _.
  apply getter_keeps.
Qed.

Lemma withdraw_keeps (self : loc) (amount : value) :
  preserves I (BankAccount.withdraw self amount).
Proof.
  unfold BankAccount.withdraw.
  apply preserves_bind; [apply _ensure_active_keeps|]. intros _.
  apply preserves_bind; [apply _validate_amount_keeps|]. intros _.
  apply preserves_bind; [apply getter_keeps|]. intros b.
  destruct (gt _ _); [apply preserves_raise|].
  apply preserves_bind; [apply set_balance_keeps|]. intros _.
  apply preserves_bind; [apply getter_keeps|]. intros b'.
  apply preserves_bind; [apply append_transaction_keeps|]. intros _.
  apply getter_keeps.
Qed.

Lemma transfer_keeps (self : loc) (amount target_account : value) :
  preserves I (BankAccount.transfer self amount target_account).
Proof.
  unfold BankAccount.transfer.
  apply preserves_bind; [apply _ensure_active_keeps|]. intros _.
  destruct target_account; try apply preserves_raise.
  apply preserves_bind; [apply _validate_amount_keeps|]. intros _.
  apply preserves_bind; [apply withdraw_keeps|]. intros _.
  apply preserves_bind; [apply deposit_keeps|]. intros _.
  apply preserves_bind; [apply getter_keeps|]. intros b.
  apply preserves_bind; [apply getter_keeps|]. intros n.
  apply preserves_bind; [apply append_transaction_keeps|]. intros _.
  apply preserves_bind; [apply getter_keeps|]. intros b'.
  apply preserves_bind; [apply getter_keeps|]. intros n'.
  apply preserves_bind; [apply append_transaction_keeps|]. intros _.
  apply preserves_ret.
Qed.

Lemma balance_setter_keeps (self : loc) (new_value : value) :
  preserves I (BankAccount.balance_setter self new_value).
Proof.
  unfold BankAccount.balance_setter.
  destruct (negb _); [apply preserves_raise|].
  destruct (lt _ _); [apply preserves_raise|].
  apply set_balance_keeps.
Qed.

Lemma status_setter_keeps (self : loc) (v : value) :
  preserves I (BankAccount.status_setter self v).
Proof.
  unfold BankAccount.status_setter.
  destruct (negb _) eqn:Hv; [apply preserves_raise|].
  apply set_status_keeps.
  apply negb_false_iff, orb_true_iff in Hv.
  destruct v; simpl in Hv; try (destruct Hv; discriminate).
  destruct Hv as [Hv|Hv]; apply String.eqb_eq in Hv; auto.
Qed.

Lemma from_string_keeps (float : string -> option Q)
    (account_data : string) :
  preserves I (BankAccount.from_string float account_data).
Proof.
  unfold BankAccount.from_string.
  apply preserves_try_except; [|intros e; apply preserves_raise].
  destruct (split ";" account_data) as [|n [|b [|st [|? ?]]]];
    try apply preserves_raise.
  destruct (float b); [apply __init___keeps|apply preserves_raise].
Qed.

Lemma exec_keeps (float : string -> option Q) (c : call) (s : state) :
  I s -> I (exec float c s).
Proof.
  intros H. destruct c; simpl.
  - apply __init___keeps, H.
  - apply __init___keeps, H.
  - apply from_string_keeps, H.
  - apply balance_setter_keeps, H.
  - apply status_setter_keeps, H.
  - apply deposit_keeps, H.
  - apply withdraw_keeps, H.
  - apply transfer_keeps, H.
Qed.

Lemma run_keeps (float : string -> option Q) (cs : list call) (s : state) :
  I s -> I (run float cs s).
Proof.
  revert s. induction cs as [|c cs IH]; intros s H; simpl.
  - exact H.
  - apply IH. apply exec_keeps. exact H.
Qed.

End Structural.

Lemma lookup_store (self l : loc) (a a' x : account) (s : state) :
  heap s !! self = Some a ->
  heap (store self a' s) !! l = Some x ->
  (l = self /\ x = a') \/ (l <> self /\ heap s !! l = Some x).
Proof.
  intros Ha Hx. destruct (decide (self = l)) as [<-|Hne].
  - rewrite (heap_store_eq _ _ _ _ Ha) in Hx. injection Hx as <-. auto.
  - rewrite heap_store_ne in Hx by assumption. right. split; congruence.
Qed.

Lemma final_set_balance (self : loc) (b : Q) (s : state) :
  final (set_balance self b s)
  = match heap s !! self with
    | Some a => store self (with_balance a b) s
    | None => s
    end.
Proof.
  unfold set_balance, bind, read.
  destruct (heap s !! self); reflexivity.
Qed.

Lemma final_set_status (self : loc) (v : string) (s : state) :
  final (set_status self v s)
  = match heap s !! self with
    | Some a => store self (with_status a v) s
    | None => s
    end.
Proof.
  unfold set_status, bind, read.
  destruct (heap s !! self); reflexivity.
Qed.

Lemma final_append_transaction (self : loc) (t : txn) (s : state) :
  final (append_transaction self t s)
  = match heap s !! self with
    | Some a => store self (with_appended a t) s
    | None => s
    end.
Proof.
  unfold append_transaction, bind, read.
  destruct (heap s !! self); reflexivity.
Qed.

Lemma final___init__ (h : string) (b st : value) (s : state) :
  final (BankAccount.__init__ h b st s) = s
  \/ (is_number b = true /\ (0 <= num b)%Q /\ is_status st = true
      /\ final (BankAccount.__init__ h b st s)
         = State (_account_counter s + 1)
             (heap s ++ [created (_account_counter s + 1) h (num b)
                           (str_of st)])).
Proof.
  rewrite __init___eq.
  destruct (is_number b); [|left; reflexivity]. simpl.
  destruct (lt (num b) 0) eqn:Hlt; [left; reflexivity|].
  apply lt_false in Hlt.
  destruct (is_status st) eqn:Hst; [|left; reflexivity]. simpl.
  right. auto.
Qed.

Lemma is_status_str_of (v : value) :
  is_status v = true -> str_of v = "active" \/ str_of v = "inactive".
Proof.
  unfold is_status, eq_str. destruct v; try discriminate. simpl.
  intros H. apply orb_true_iff in H as [H|H]; apply String.eqb_eq in H; auto.
Qed.

(** ** Sound objects *)

Lemma all_sound_store (self : loc) (a a' : account) (s : state) :
  all_sound s -> heap s !! self = Some a -> sound a' ->
  all_sound (store self a' s).
Proof.
  intros Hs Ha Ha' l x Hx.
  destruct (lookup_store _ _ _ _ _ _ Ha Hx) as [[_ ->]|[_ Hl]].
  - exact Ha'.
  - eapply Hs. eassumption.
Qed.

Lemma sound_with_balance (a : account) (b : Q) :
  sound a -> sound (with_balance a b).
Proof. intros H. exact H. Qed.

Lemma sound_with_status (a : account) (v : string) :
  v = "active" \/ v = "inactive" -> sound a -> sound (with_status a v).
Proof. intros Hv [_ H]. split; assumption. Qed.

Lemma sound_with_appended (a : account) (t : txn) :
  sound a -> sound (with_appended a t).
Proof.
  intros [Hst (b & ts & Hh & Hb)]. split; [exact Hst|].
  exists b, (ts ++ [t])%list. simpl. rewrite Hh. auto.
Qed.

Lemma run_all_sound (float : string -> option Q) (cs : list call)
    (s : state) :
  all_sound s -> all_sound (run float cs s).
Proof.
  apply run_keeps.
  - intros self b s0 H. rewrite final_set_balance.
    destruct (heap s0 !! self) as [a|] eqn:Ha; [|exact H].
    eapply all_sound_store; eauto using sound_with_balance.
  - intros self t s0 H. rewrite final_append_transaction.
    destruct (heap s0 !! self) as [a|] eqn:Ha; [|exact H].
    eapply all_sound_store; eauto using sound_with_appended.
  - intros self v Hv s0 H. rewrite final_set_status.
    destruct (heap s0 !! self) as [a|] eqn:Ha; [|exact H].
    eapply all_sound_store; eauto using sound_with_status.
  - intros h b st s0 H.
    destruct (final___init__ h b st s0) as [->|(_ & Hb & Hst & ->)];
      [exact H|].
    intros l x Hx. simpl in Hx.
    apply lookup_app_Some in Hx as [Hx|[_ Hx]]; [eapply H; eassumption|].
    apply list_lookup_singleton_Some in Hx as [_ <-].
    split; [apply is_status_str_of; assumption|].
    exists (num b), []. auto.
Qed.

(** X10: in every store reached from a fresh process, whatever was called
    and however the calls ended, every account has one of the two statuses,
    and its history is not empty: it starts with the creation record, whose
    amount and resulting balance are both the initial balance. *)
Theorem status_and_history_head (float : string -> option Q)
    (cs : list call) (l : loc) (a : account) :
  heap (run float cs initial_state) !! l = Some a ->
  (_status a = "active" \/ _status a = "inactive")
  /\ exists b ts,
       _transactions a = Txn "Account created" (VFloat b) b None :: ts.
Proof.
  intros Ha.
  assert (H : all_sound (run float cs initial_state)).
  { apply run_all_sound. intros i x Hx. simpl in Hx.
    rewrite lookup_nil in Hx. discriminate. }
  destruct (H l a Ha) as [Hst (b & ts & Hh & _)].
  split; [exact Hst|]. exists b, ts. exact Hh.
Qed.

Lemma status_and_history_head_witness :
  exists a,
    heap (run float_of_digits
            [FromString " Bob Wilson ;750; active ";
             SetStatus 0 (VStr "closed");
             SetStatus 0 (VStr "inactive");
             SetBalance 0 (VInt 3)] initial_state) !! 0%nat = Some a
    /\ _status a = "inactive"
    /\ exists ts,
         _transactions a
         = Txn "Account created" (VFloat 750) 750 None :: ts.
Proof.
  eexists. split; [reflexivity|].
  destruct (status_and_history_head float_of_digits
              [FromString " Bob Wilson ;750; active ";
               SetStatus 0 (VStr "closed");
               SetStatus 0 (VStr "inactive");
               SetBalance 0 (VInt 3)] 0 _ eq_refl)
    as [Hst (b & ts & Hh)].
  split; [reflexivity|]. exists ts.
  rewrite Hh. simpl in Hh. injection Hh as <- _. reflexivity.
Defined.

(** ** Objects only grow *)

Lemma grown_refl (a : account) : grown a a.
Proof. repeat split; reflexivity. Qed.

Lemma grown_trans (a b c : account) : grown a b -> grown b c -> grown a c.
Proof.
  intros (Hn & Hh & Hp) (Hn' & Hh' & Hp').
  repeat split; [congruence|congruence|]. etrans; eassumption.
Qed.

Lemma evolved_refl (s : state) : evolved s s.
Proof.
  split; [lia|]. intros l a Ha. exists a. split; [exact Ha|apply grown_refl].
Qed.

Lemma evolved_store (s0 s : state) (self : loc) (a a' : account) :
  evolved s0 s -> heap s !! self = Some a -> grown a a' ->
  evolved s0 (store self a' s).
Proof.
  unfold loc in *. intros [Hc Hs] Ha Hg. split; [exact Hc|].
  intros l x Hx. destruct (Hs l x Hx) as (x' & Hx' & Hg').
  destruct (decide (self = l)) as [<-|Hne].
  - exists a'. split; [eapply heap_store_eq; eassumption|].
    rewrite Ha in Hx'. injection Hx' as <-.
    eapply grown_trans; eassumption.
  - exists x'. split; [|exact Hg'].
    rewrite heap_store_ne by assumption. exact Hx'.
Qed.

Lemma run_evolved (float : string -> option Q) (cs : list call)
    (s : state) :
  evolved s (run float cs s).
Proof.
  apply (run_keeps (evolved s)); [| | | |apply evolved_refl].
  - intros self b s0 H. rewrite final_set_balance.
    destruct (heap s0 !! self) as [a|] eqn:Ha; [|exact H].
    eapply evolved_store; eauto. repeat split; reflexivity.
  - intros self t s0 H. rewrite final_append_transaction.
    destruct (heap s0 !! self) as [a|] eqn:Ha; [|exact H].
    eapply evolved_store; eauto.
    repeat split; try reflexivity. simpl. apply prefix_app_r. reflexivity.
  - intros self v _ s0 H. rewrite final_set_status.
    destruct (heap s0 !! self) as [a|] eqn:Ha; [|exact H].
    eapply evolved_store; eauto. repeat split; reflexivity.
  - intros h b st s0 [Hc Hs].
    destruct (final___init__ h b st s0) as [->|(_ & _ & _ & ->)];
      [split; assumption|].
    split; [simpl; lia|].
    intros l x Hx. destruct (Hs l x Hx) as (x' & Hx' & Hg).
    exists x'. split; [|exact Hg]. simpl.
    apply lookup_app_l_Some. exact Hx'.
Qed.

(** X11: no sequence of calls, returning or raising, destroys or rewrites
    anything: an account that exists keeps existing at its reference with
    the same account number and the same holder, and the history that
    [get_transaction_history] returned before is a prefix of the one it
    returns after, so no record is ever removed, changed or reordered.  For
    its part [get_transaction_history] leaves the store as it is. *)
Theorem history_only_grows (float : string -> option Q) (cs : list call)
    (s : state) (l : loc) (a : account) :
  heap s !! l = Some a ->
  exists a' h h',
    heap (run float cs s) !! l = Some a'
    /\ _account_number a' = _account_number a
    /\ _account_holder a' = _account_holder a
    /\ BankAccount.get_transaction_history l s = Return h s
    /\ BankAccount.get_transaction_history l (run float cs s)
       = Return h' (run float cs s)
    /\ h `prefix_of` h'.
Proof.
  intros Ha.
  destruct (run_evolved float cs s) as [_ Hs].
  destruct (Hs l a Ha) as (a' & Ha' & Hn & Hh & Hp).
  exists a', (_transactions a), (_transactions a').
  split; [exact Ha'|]. split; [exact Hn|]. split; [exact Hh|].
  unfold BankAccount.get_transaction_history, bind.
  rewrite (read_Some _ _ _ Ha), (read_Some _ _ _ Ha').
  repeat split. exact Hp.
Qed.

Lemma history_only_grows_witness :
  exists a',
    heap (run float_of_digits
            [Deposit 0 (VInt 5); SetBalance 0 (VInt 0);
             Transfer 0 (VInt 1) (VAccount 1); New "Eve" (VInt 1) VNone]
            (demo "active")) !! 0%nat = Some a'
    /\ _account_number a' = 1001
    /\ _transactions john `prefix_of` _transactions a'.
Proof.
  destruct (history_only_grows float_of_digits
              [Deposit 0 (VInt 5); SetBalance 0 (VInt 0);
               Transfer 0 (VInt 1) (VAccount 1); New "Eve" (VInt 1) VNone]
              (demo "active") 0 john eq_refl)
    as (a' & h & h' & Ha' & Hn & _ & Hg & Hg' & Hp).
  exists a'. split; [exact Ha'|]. split; [exact Hn|].
  unfold BankAccount.get_transaction_history, bind in Hg, Hg'.
  rewrite (read_Some _ _ _ Ha') in Hg'.
  injection Hg as <-. injection Hg' as <-. exact Hp.
Defined.

(** ** The history as a ledger *)

Lemma last_balance_app (prev : Q) (r : list txn) (t : txn) :
  last_balance prev (r ++ [t]) = resulting_balance t.
Proof. unfold last_balance. rewrite fold_left_app. reflexivity. Qed.

Lemma ledger_from_app (prev : Q) (r : list txn) (t : txn) :
  ledger_from prev r -> follows (last_balance prev r) t ->
  ledger_from prev (r ++ [t]).
Proof.
  revert prev. induction r as [|x r IH]; intros prev Hr Ht; simpl in *.
  - auto.
  - destruct Hr as [Hx Hr]. split; [exact Hx|]. apply IH; assumption.
Qed.

Lemma ledger_appended (a : account) (b : Q) (t : txn) :
  ledger a -> follows (_balance a) t -> resulting_balance t = b ->
  ledger (with_appended (with_balance a b) t).
Proof.
  unfold ledger. simpl.
  destruct (_transactions a) as [|c r]; [contradiction|].
  intros (Hc & Hamt & Hr & Hl) Ht Hb. simpl.
  split; [exact Hc|]. split; [exact Hamt|].
  split; [apply ledger_from_app; [exact Hr|rewrite Hl; exact Ht]|].
  rewrite last_balance_app. exact Hb.
Qed.

Ltac follows_record :=
  unfold follows; simpl;
  let E := fresh "E" in
  split; [intros E; first [discriminate E | reflexivity]
  | split; [intros E; first [discriminate E | reflexivity]
  | split; [intros [E|E]; first [discriminate E | reflexivity]
  | auto 6]]].

Lemma with_balance_same (a : account) : with_balance a (_balance a) = a.
Proof. destruct a. reflexivity. Qed.

Lemma ledger_deposited (a : account) (amount : value) :
  ledger a -> ledger (deposited a amount).
Proof.
  intros H. apply ledger_appended; [exact H| |reflexivity].
  follows_record.
Qed.

Lemma ledger_withdrawn (a : account) (amount : value) :
  ledger a -> ledger (withdrawn a amount).
Proof.
  intros H. apply ledger_appended; [exact H| |reflexivity].
  follows_record.
Qed.

Lemma ledger_sent (a : account) (amount : value) (n : Z) :
  ledger a -> ledger (sent a amount n).
Proof.
  intros H. unfold sent. rewrite <- (with_balance_same a) at 1.
  apply ledger_appended; [exact H| |reflexivity].
  follows_record.
Qed.

Lemma ledger_received (a : account) (amount : value) (n : Z) :
  ledger a -> ledger (received a amount n).
Proof.
  intros H. unfold received. rewrite <- (with_balance_same a) at 1.
  apply ledger_appended; [exact H| |reflexivity].
  follows_record.
Qed.

Lemma all_ledger_store (self : loc) (a a' : account) (s : state) :
  all_ledger s -> heap s !! self = Some a -> ledger a' ->
  all_ledger (store self a' s).
Proof.
  intros Hs Ha Ha' l x Hx.
  destruct (lookup_store _ _ _ _ _ _ Ha Hx) as [[_ ->]|[_ Hl]].
  - exact Ha'.
  - eapply Hs. eassumption.
Qed.

Lemma deposit_ledger (self : loc) (amount : value) :
  preserves all_ledger (BankAccount.deposit self amount).
Proof.
  intros s H. rewrite deposit_eq.
  destruct (heap s !! self) as [a|] eqn:Ha; [|exact H].
  destruct (negb (String.eqb _ _)); [exact H|].
  destruct (_ || _); [exact H|]. simpl.
  eapply all_ledger_store; eauto using ledger_deposited.
Qed.

Lemma withdraw_ledger (self : loc) (amount : value) :
  preserves all_ledger (BankAccount.withdraw self amount).
Proof.
  intros s H. rewrite withdraw_eq.
  destruct (heap s !! self) as [a|] eqn:Ha; [|exact H].
  destruct (negb (String.eqb _ _)); [exact H|].
  destruct (_ || _); [exact H|].
  destruct (gt _ _); [exact H|]. simpl.
  eapply all_ledger_store; eauto using ledger_withdrawn.
Qed.

Lemma transfer_records_ledger (self target : loc) (amount : value) :
  preserves all_ledger (transfer_records self target amount).
Proof.
  intros s H.
  destruct (heap s !! self) as [a|] eqn:Ha.
  - destruct (heap s !! target) as [b|] eqn:Hb.
    + destruct (decide (self = target)) as [<-|Hne].
      * rewrite (transfer_records_self _ _ _ _ Ha). simpl.
        eapply all_ledger_store; eauto using ledger_sent, ledger_received.
      * rewrite (transfer_records_ne _ _ _ _ _ _ Hne Ha Hb). simpl.
        eapply all_ledger_store.
        -- eapply all_ledger_store; eauto using ledger_sent.
        -- rewrite heap_store_ne by assumption. eassumption.
        -- eauto using ledger_received.
    + unfold transfer_records. unfold bind at 1.
      rewrite (balance_Some _ _ _ Ha). unfold bind at 1.
      unfold BankAccount.account_number, bind at 1.
      rewrite (read_None _ _ Hb). exact H.
  - unfold transfer_records. unfold bind at 1.
    unfold BankAccount.balance, bind at 1.
    rewrite (read_None _ _ Ha). exact H.
Qed.

Lemma transfer_ledger (self : loc) (amount target_account : value) :
  preserves all_ledger (BankAccount.transfer self amount target_account).
Proof.
  unfold BankAccount.transfer.
  apply preserves_bind; [apply _ensure_active_keeps|]. intros _.
  destruct target_account; try apply preserves_raise.
  apply preserves_bind; [apply _validate_amount_keeps|]. intros _.
  apply preserves_bind; [apply withdraw_ledger|]. intros _.
  apply preserves_bind; [apply deposit_ledger|]. intros _.
  apply transfer_records_ledger.
Qed.

Lemma set_status_ledger (self : loc) (v : string) :
  preserves all_ledger (set_status self v).
Proof.
  intros s H. rewrite final_set_status.
  destruct (heap s !! self) as [a|] eqn:Ha; [|exact H].
  eapply all_ledger_store; eauto. exact (H _ _ Ha).
Qed.

Lemma __init___ledger (h : string) (b st : value) :
  preserves all_ledger (BankAccount.__init__ h b st).
Proof.
  intros s H.
  destruct (final___init__ h b st s) as [->|(_ & _ & _ & ->)]; [exact H|].
  intros l x Hx. simpl in Hx.
  apply lookup_app_Some in Hx as [Hx|[_ Hx]]; [eapply H; eassumption|].
  apply list_lookup_singleton_Some in Hx as [_ <-].
  repeat split.
Qed.

Lemma exec_ledger (float : string -> option Q) (c : call) (s : state) :
  is_SetBalance c = false -> all_ledger s -> all_ledger (exec float c s).
Proof.
  intros Hc H. destruct c; simpl; try discriminate Hc.
  - apply __init___ledger, H.
  - apply __init___ledger, H.
  - apply from_string_keeps; [apply __init___ledger|exact H].
  - apply status_setter_keeps; [|exact H].
    intros self0 v0 _. apply set_status_ledger.
  - apply deposit_ledger, H.
  - apply withdraw_ledger, H.
  - apply transfer_ledger, H.
Qed.

(** X12: in exact arithmetic on finite numbers, as long as nothing is
    assigned to [balance], the history of every account is a ledger of it,
    in every store reached from a fresh process:
    it starts with the creation record; every [Deposit] record reports the
    balance of the record before plus its amount, every [Withdraw] record
    that balance minus its amount, every transfer record that same balance;
    and the last record reports the balance the account has. *)
Theorem history_is_ledger (float : string -> option Q) (cs : list call)
    (l : loc) (a : account) :
  forallb (fun c => negb (is_SetBalance c)) cs = true ->
  heap (run float cs initial_state) !! l = Some a ->
  ledger a.
Proof.
  intros Hcs.
  assert (H : forall s, all_ledger s -> all_ledger (run float cs s)).
  { induction cs as [|c cs IH]; intros s Hs; simpl; [exact Hs|].
    simpl in Hcs. apply andb_true_iff in Hcs as [Hc Hcs].
    apply IH; [exact Hcs|]. apply exec_ledger; [|exact Hs].
    apply negb_true_iff. exact Hc. }
  intros Ha. apply (H initial_state) in Ha; [exact Ha|].
  intros i x Hx. simpl in Hx. rewrite lookup_nil in Hx. discriminate.
Qed.

Lemma history_is_ledger_witness :
  exists a,
    heap (run float_of_digits
            [New "John Doe" (VInt 1000) (VStr "active");
             FromString "Bob Wilson;750;active";
             Deposit 0 (VInt 200);
             Transfer 0 (VInt 300) (VAccount 1);
             Transfer 1 (VInt 50) (VAccount 1);
             SetStatus 1 (VStr "inactive");
             Transfer 0 (VInt 1) (VAccount 1)] initial_state) !! 0%nat
    = Some a
    /\ ledger a
    /\ length (_transactions a) = 5%nat.
Proof.
  eexists. split; [vm_compute; reflexivity|]. split; [|reflexivity].
  eapply (history_is_ledger float_of_digits
            [New "John Doe" (VInt 1000) (VStr "active");
             FromString "Bob Wilson;750;active";
             Deposit 0 (VInt 200);
             Transfer 0 (VInt 300) (VAccount 1);
             Transfer 1 (VInt 50) (VAccount 1);
             SetStatus 1 (VStr "inactive");
             Transfer 0 (VInt 1) (VAccount 1)] 0);
    reflexivity.
Defined.

(** ** The total of the balances *)

Lemma total_insert (h : list account) (i : nat) (a a' : account) :
  h !! i = Some a ->
  (foldr (fun a acc => _balance a + acc) 0 (<[i := a']> h)
   == foldr (fun a acc => _balance a + acc) 0 h - _balance a + _balance a')%Q.
Proof.
  revert i. induction h as [|x h IH]; intros i Hi.
  - rewrite lookup_nil in Hi. discriminate.
  - destruct i as [|i]; simpl in *.
    + injection Hi as ->. ring.
    + rewrite (IH i Hi). ring.
Qed.

Lemma total_store (self : loc) (a a' : account) (s : state) :
  heap s !! self = Some a ->
  (total (store self a' s) == total s - _balance a + _balance a')%Q.
Proof. intros H. unfold total. simpl. apply total_insert. exact H. Qed.

Lemma transfer_Return_inv (self : loc) (amount target_account : value)
    (s s' : state) (r : bool) :
  BankAccount.transfer self amount target_account s = Return r s' ->
  exists target a b,
    target_account = VAccount target
    /\ heap s !! self = Some a /\ heap s !! target = Some b
    /\ _status a = "active" /\ _status b = "active"
    /\ is_number amount = true
    /\ (0 < num amount)%Q /\ (num amount <= _balance a)%Q.
Proof.
  intros H.
  apply transfer_Return in H
    as (target & b1 & s1 & b2 & s2 & -> & Hw & Hd & _).
  apply withdraw_Return_inv in Hw
    as (a & Ha & Hact & Hnum & Hpos & Hle & -> & _).
  apply deposit_Return_inv in Hd as (b & Hb & Hactb & _).
  destruct (decide (self = target)) as [<-|Hne].
  - exists self, a, a. repeat split; assumption.
  - rewrite heap_store_ne in Hb by assumption.
    exists target, a, b. repeat split; assumption.
Qed.

(** X13: a successful [deposit] raises the total of all balances by the
    amount, a successful [withdraw] lowers it by the amount, and a
    successful [transfer] leaves it numerically as it was: what the source
    loses the target gains. *)
Theorem total_of_balances (s s' : state) (self : loc) (amount : value) :
  (forall r, BankAccount.deposit self amount s = Return r s' ->
     (total s' == total s + num amount)%Q)
  /\ (forall r, BankAccount.withdraw self amount s = Return r s' ->
     (total s' == total s - num amount)%Q)
  /\ (forall target_account r,
        BankAccount.transfer self amount target_account s = Return r s' ->
        (total s' == total s)%Q).
Proof.
  split; [|split].
  - intros r H. apply deposit_Return_inv in H as (a & Ha & _ & _ & _ & -> & _).
    rewrite (total_store _ _ _ _ Ha). simpl. ring.
  - intros r H.
    apply withdraw_Return_inv in H as (a & Ha & _ & _ & _ & _ & -> & _).
    rewrite (total_store _ _ _ _ Ha). simpl. ring.
  - intros target_account r H. pose proof H as H'.
    apply transfer_Return_inv in H'
      as (target & a & b & -> & Ha & Hb & Hacta & Hactb & Hnum & Hpos & Hle).
    destruct (decide (self = target)) as [<-|Hne].
    + rewrite (transfer_ok_self _ _ _ _ Ha Hacta Hnum Hpos Hle) in H.
      injection H as _ <-.
      rewrite (total_store _ _ _ _ Ha). simpl. ring.
    + rewrite (transfer_ok_ne _ _ _ _ _ _ Hne Ha Hb Hacta Hactb Hnum Hpos Hle)
        in H.
      injection H as _ <-.
      set (s1 := store self (withdrawn a amount) s).
      set (s2 := store target (deposited b amount) s1).
      set (s3 := store self (sent (withdrawn a amount) amount
                               (_account_number b)) s2).
      assert (Hb1 : heap s1 !! target = Some b).
      { subst s1. rewrite heap_store_ne by assumption. assumption. }
      assert (Ha2 : heap s2 !! self = Some (withdrawn a amount)).
      { subst s2. rewrite heap_store_ne by congruence.
        subst s1. eapply heap_store_eq. eassumption. }
      assert (Hb3 : heap s3 !! target = Some (deposited b amount)).
      { subst s3. rewrite heap_store_ne by assumption.
        subst s2. eapply heap_store_eq. eassumption. }
      rewrite (total_store _ _ _ _ Hb3). subst s3.
      rewrite (total_store _ _ _ _ Ha2). subst s2.
      rewrite (total_store _ _ _ _ Hb1). subst s1.
      rewrite (total_store _ _ _ _ Ha). simpl. ring.
Qed.

Lemma total_of_balances_witness :
  exists s',
    BankAccount.transfer 0 (VInt 300) (VAccount 1) (demo "active")
    = Return true s'
    /\ (total (demo "active") == 1500)%Q /\ (total s' == 1500)%Q.
Proof.
  set (s' := final (BankAccount.transfer 0 (VInt 300) (VAccount 1)
                      (demo "active"))).
  assert (Ht : BankAccount.transfer 0 (VInt 300) (VAccount 1) (demo "active")
               = Return true s') by reflexivity.
  exists s'. split; [exact Ht|]. split; [reflexivity|].
  destruct (total_of_balances (demo "active") s' 0 (VInt 300))
    as (_ & _ & Htr).
  rewrite (Htr (VAccount 1) true Ht). reflexivity.
Defined.

(** ** The errors that leave the interface *)

Lemma deposit_raises (self : loc) (amount : value) (s s' : state) (e : exn) :
  BankAccount.deposit self amount s = Raise e s' ->
  is_BankAccountError e = true \/ heap s !! self = None.
Proof.
  rewrite deposit_eq. destruct (heap s !! self) as [a|]; [|auto].
  destruct (negb (String.eqb _ _)); [intros [= <- <-]; auto|].
  destruct (_ || _); [intros [= <- <-]; auto|discriminate].
Qed.

Lemma withdraw_raises (self : loc) (amount : value) (s s' : state) (e : exn) :
  BankAccount.withdraw self amount s = Raise e s' ->
  is_BankAccountError e = true \/ heap s !! self = None.
Proof.
  rewrite withdraw_eq. destruct (heap s !! self) as [a|]; [|auto].
  destruct (negb (String.eqb _ _)); [intros [= <- <-]; auto|].
  destruct (_ || _); [intros [= <- <-]; auto|].
  destruct (gt _ _); [intros [= <- <-]; auto|discriminate].
Qed.

Lemma transfer_raises (self : loc) (amount target_account : value)
    (s s' : state) (e : exn) :
  BankAccount.transfer self amount target_account s = Raise e s' ->
  is_BankAccountError e = true \/ heap s !! self = None
  \/ exists target, target_account = VAccount target
                    /\ heap s !! target = None.
Proof.
  rewrite transfer_eq.
  destruct (heap s !! self) as [a|] eqn:Ha; [|auto].
  destruct (negb (String.eqb _ _)); [intros [= <- <-]; auto|].
  destruct target_account as [| | | | |target];
    try (intros [= <- <-]; auto).
  destruct (_ || _); [intros [= <- <-]; auto|].
  destruct (BankAccount.withdraw self amount s) as [b1 s1|e1 s1] eqn:Hw.
  - apply withdraw_Return in Hw as (a0 & Ha0 & -> & _).
    rewrite Ha in Ha0. injection Ha0 as <-.
    set (s1 := store self (withdrawn a amount) s).
    assert (Ha1 : heap s1 !! self = Some (withdrawn a amount)).
    { subst s1. eapply heap_store_eq. eassumption. }
    destruct (BankAccount.deposit target amount s1) as [b2 s2|e2 s2] eqn:Hd.
    + apply deposit_Return in Hd as (b & Hb & -> & _).
      set (s2 := store target (deposited b amount) s1).
      assert (Hb2 : heap s2 !! target = Some (deposited b amount)).
      { subst s2. eapply heap_store_eq. eassumption. }
      destruct (decide (self = target)) as [<-|Hne].
      * rewrite (transfer_records_self _ _ _ _ Hb2). discriminate.
      * assert (Ha2 : heap s2 !! self = Some (withdrawn a amount)).
        { subst s2. rewrite heap_store_ne by congruence. exact Ha1. }
        rewrite (transfer_records_ne _ _ _ _ _ _ Hne Ha2 Hb2). discriminate.
    + intros [= <- <-]. apply deposit_raises in Hd as [He|Hnone]; [auto|].
      right. right. exists target. split; [reflexivity|].
      destruct (decide (self = target)) as [<-|Hne].
      * rewrite Ha1 in Hnone. discriminate.
      * subst s1. rewrite heap_store_ne in Hnone by assumption. exact Hnone.
  - intros [= <- <-]. apply withdraw_raises in Hw as [He|Hnone]; [auto|].
    congruence.
Qed.

(** X14: whatever is called, with whatever arguments whose numbers convert,
    an exception that leaves the interface is one of the account errors: a
    value of the wrong type where a number, a status or an account is
    expected, and a string [from_string] cannot read, never surface as
    another exception. *)
Theorem only_account_errors (float : string -> option Q) (c : call)
    (s : state) (e : exn) :
  refs_ok s c -> arguments_convert c -> raised float c s = Some e ->
  is_BankAccountError e = true.
Proof.
  assert (Hlt : forall l : loc, (l < length (heap s))%nat ->
                                heap s !! l <> None).
  { intros l Hl Hnone. apply lookup_ge_None in Hnone. lia. }
  assert (Herr : forall A (o : outcome A), error_of o = Some e ->
                   exists s', o = Raise e s').
  { intros A [a s'|e' s']; simpl; [discriminate|].
    intros [= ->]. eauto. }
  destruct c; simpl; intros Hrefs _ H; apply Herr in H as [s' H].
  - rewrite __init___eq in H.
    destruct (negb _); [injection H as <- _; reflexivity|].
    destruct (lt _ _); [injection H as <- _; reflexivity|].
    destruct (negb _); [injection H as <- _; reflexivity|discriminate].
  - unfold BankAccount.from_balance in H. rewrite __init___eq in H.
    destruct (negb _); [injection H as <- _; reflexivity|].
    destruct (lt _ _); [injection H as <- _; reflexivity|].
    destruct (negb _); [injection H as <- _; reflexivity|discriminate].
  - unfold BankAccount.from_string, try_except in H.
    match type of H with
    | match ?m with _ => _ end = _ => destruct m; [discriminate|]
    end.
    injection H as <- _. reflexivity.
  - rewrite balance_setter_eq in H.
    destruct (negb _); [injection H as <- _; reflexivity|].
    destruct (lt _ _); [injection H as <- _; reflexivity|].
    destruct (heap s !! self) eqn:Hs; [discriminate|].
    exfalso. eapply Hlt; eassumption.
  - rewrite status_setter_eq in H.
    destruct (negb _); [injection H as <- _; reflexivity|].
    destruct (heap s !! self) eqn:Hs; [discriminate|].
    exfalso. eapply Hlt; eassumption.
  - apply deposit_raises in H as [H|H]; [exact H|].
    exfalso. eapply Hlt; eassumption.
  - apply withdraw_raises in H as [H|H]; [exact H|].
    exfalso. eapply Hlt; eassumption.
  - destruct Hrefs as [Hself Htarget].
    apply transfer_raises in H as [H|[H|(t & -> & H)]]; [exact H| |].
    + exfalso. eapply Hlt; eassumption.
    + exfalso. eapply Hlt; eassumption.
Qed.

Lemma only_account_errors_witness :
  raised float_of_digits (FromString "no separators") (demo "active")
  = Some (parse_failure ValueError)
  /\ is_BankAccountError (parse_failure ValueError) = true
  /\ exists e,
       raised float_of_digits (Transfer 0 (VStr "all") VNone)
         (demo "active") = Some e
       /\ is_BankAccountError e = true.
Proof.
  split; [reflexivity|]. split.
  - apply (only_account_errors float_of_digits (FromString "no separators")
             (demo "active")); [exact Logic.I|exact Logic.I|reflexivity].
  - eexists. split; [reflexivity|].
    apply (only_account_errors float_of_digits
             (Transfer 0 (VStr "all") VNone) (demo "active"));
      [|exact Logic.I|reflexivity].
    split; [simpl; lia|exact Logic.I].
Defined.

(** ** Composition *)

(** X15: in exact arithmetic on finite numbers, on an active account whose
    balance is not negative, a [deposit] followed by a [withdraw] of the same
    amount, one that converts, always goes through: the balance is
    numerically back to what it was, the history has gained a [Deposit] and
    a [Withdraw] record, and nothing else has changed: not the status, the
    number or the holder of the account, not any other account, not the
    counter. *)
Theorem deposit_then_withdraw (s : state) (self : loc) (a : account)
    (amount : value) :
  heap s !! self = Some a -> _status a = "active" ->
  (0 <= _balance a)%Q ->
  is_number amount = true -> converts amount -> (0 < num amount)%Q ->
  exists r1 s1 r2 s2 a2,
    BankAccount.deposit self amount s = Return r1 s1
    /\ BankAccount.withdraw self amount s1 = Return r2 s2
    /\ (r2 == _balance a)%Q
    /\ heap s2 !! self = Some a2
    /\ (_balance a2 == _balance a)%Q
    /\ _transactions a2
       = (_transactions a
            ++ [Txn "Deposit" amount (_balance a + num amount) None;
                Txn "Withdraw" amount
                    (_balance a + num amount - num amount) None])%list
    /\ _status a2 = _status a
    /\ _account_number a2 = _account_number a
    /\ _account_holder a2 = _account_holder a
    /\ (forall l, l <> self -> heap s2 !! l = heap s !! l)
    /\ _account_counter s2 = _account_counter s.
Proof.
  intros Ha Hact Hbal Hnum _ Hpos.
  set (s1 := store self (deposited a amount) s).
  assert (Ha1 : heap s1 !! self = Some (deposited a amount)).
  { subst s1. eapply heap_store_eq. eassumption. }
  assert (Hle : (num amount <= _balance (deposited a amount))%Q).
  { simpl. lra. }
  exists (_balance a + num amount)%Q, s1.
  eexists. eexists. eexists.
  split; [apply deposit_ok; assumption|].
  split; [apply (withdraw_ok _ _ _ _ Ha1 Hact Hnum Hpos Hle)|].
  split; [simpl; ring|].
  split; [subst s1; rewrite store_store; eapply heap_store_eq; eassumption|].
  split; [simpl; ring|].
  split; [simpl; rewrite <- app_assoc; reflexivity|].
  do 3 (split; [reflexivity|]).
  split; [|reflexivity].
  intros l Hl. subst s1. rewrite store_store.
  apply heap_store_ne. congruence.
Qed.

Lemma deposit_then_withdraw_witness :
  exists r1 s1 r2 s2,
    BankAccount.deposit 0 (VFloat 0.25) (demo "active") = Return r1 s1
    /\ BankAccount.withdraw 0 (VFloat 0.25) s1 = Return r2 s2
    /\ (r2 == 1000)%Q.
Proof.
  assert (Hbal : (0 <= _balance john)%Q) by discriminate.
  destruct (deposit_then_withdraw (demo "active") 0 john (VFloat 0.25)
              eq_refl eq_refl Hbal eq_refl Logic.I eq_refl)
    as (r1 & s1 & r2 & s2 & a2 & Hd & Hw & Hr & _).
  exists r1, s1, r2, s2. repeat split; assumption.
Defined.

(** ** What [from_string] accepts *)

Lemma split_not_nil (sep : ascii) (s : string) : split sep s <> [].
Proof.
  destruct s as [|c r]; simpl; [discriminate|].
  destruct (Ascii.eqb c sep); [discriminate|].
  destruct (split sep r); discriminate.
Qed.

Lemma join_cons (sep : ascii) (w v : string) (r : list string) :
  join sep (w :: v :: r) = w ++ String sep (join sep (v :: r)).
Proof. reflexivity. Qed.

Lemma join_split (sep : ascii) (s : string) : join sep (split sep s) = s.
Proof.
  induction s as [|c r IH]; [reflexivity|]. simpl.
  destruct (Ascii.eqb c sep) eqn:Hc.
  - apply Ascii.eqb_eq in Hc as ->.
    destruct (split sep r) as [|w ws] eqn:Hs;
      [exfalso; eapply split_not_nil; eassumption|].
    rewrite join_cons, IH. reflexivity.
  - destruct (split sep r) as [|w ws] eqn:Hs;
      [exfalso; eapply split_not_nil; eassumption|].
    destruct ws as [|v ws].
    + simpl in *. rewrite IH. reflexivity.
    + rewrite join_cons in *. rewrite <- IH. reflexivity.
Qed.

Lemma split_fields (sep : ascii) (s : string) :
  Forall (fun w => count_char sep w = 0%nat) (split sep s).
Proof.
  induction s as [|c r IH]; simpl.
  - repeat constructor.
  - destruct (Ascii.eqb c sep) eqn:Hc.
    + constructor; [reflexivity|exact IH].
    + destruct (split sep r) as [|w ws].
      * repeat constructor. simpl. rewrite Hc. reflexivity.
      * inversion IH as [|? ? Hw Hws]; subst.
        constructor; [|exact Hws]. simpl. rewrite Hc. exact Hw.
Qed.

Lemma length_split (sep : ascii) (s : string) :
  length (split sep s) = S (count_char sep s).
Proof.
  induction s as [|c r IH]; [reflexivity|]. simpl.
  destruct (Ascii.eqb c sep).
  - simpl. rewrite IH. reflexivity.
  - destruct (split sep r) as [|w ws]; simpl in *; [discriminate|].
    exact IH.
Qed.

(** X16: [from_string] returns only on a string made of exactly three
    fields separated by two [";"], none of which contains a [";"], the
    second one read by [float] as a value that is not less than zero (the
    test [< 0] of the constructor is false of it) and the third one,
    stripped, one of the two statuses.  The account it creates
    has the first field, stripped, as its holder, so a holder without
    whitespace at either end, and that number as its balance.  A string with
    another number of [";"] raises the parse failure and creates nothing. *)
Theorem from_string_accepts (float : string -> option Q)
    (account_data : string) (s s' : state) (l : loc) :
  (BankAccount.from_string float account_data s = Return l s' ->
   exists name balance_text status_text b a,
     account_data
     = name ++ String ";" (balance_text ++ String ";" status_text)
     /\ count_char ";" name = 0%nat
     /\ count_char ";" balance_text = 0%nat
     /\ count_char ";" status_text = 0%nat
     /\ float balance_text = Some b /\ lt b 0 = false
     /\ heap s' = (heap s ++ [a])%list /\ l = length (heap s)
     /\ _account_holder a = strip name
     /\ no_outer_space (_account_holder a)
     /\ _balance a = b
     /\ _status a = strip status_text
     /\ (_status a = "active" \/ _status a = "inactive"))
  /\ (count_char ";" account_data <> 2%nat ->
      BankAccount.from_string float account_data s
      = Raise (parse_failure ValueError) s).
Proof.
  split.
  - intros H.
    apply from_string_Return in H as (n & bt & st & b & Hs & Hf & Hi).
    apply __init___Return in Hi as (-> & -> & _ & Hb & Hst).
    pose proof (join_split ";" account_data) as Hj.
    pose proof (split_fields ";" account_data) as Hc.
    rewrite Hs in Hj, Hc.
    apply Forall_cons in Hc as [Hn Hc].
    apply Forall_cons in Hc as [Hbt Hc].
    apply Forall_cons in Hc as [Hstc _].
    exists n, bt, st, b. eexists.
    split; [symmetry; exact Hj|].
    do 3 (split; [assumption|]).
    split; [exact Hf|]. split; [apply lt_false; exact Hb|].
    split; [reflexivity|]. split; [reflexivity|].
    split; [reflexivity|].
    split; [apply strip_no_outer_space|].
    split; [reflexivity|]. split; [reflexivity|].
    apply is_status_str_of in Hst. exact Hst.
  - intros Hcount. unfold BankAccount.from_string, try_except.
    pose proof (length_split ";" account_data) as Hlen.
    destruct (split ";" account_data) as [|n [|bt [|st [|? ?]]]];
      try reflexivity.
    simpl in Hlen. congruence.
Qed.

Lemma from_string_accepts_witness :
  (exists name a,
     heap (final (BankAccount.from_string float_of_digits
                    "  Bob Wilson ;750; active " initial_state)) = [a]
     /\ _account_holder a = strip name
     /\ _account_holder a = "Bob Wilson"
     /\ no_outer_space (_account_holder a))
  /\ BankAccount.from_string float_of_digits "Wilson; Bob;750;active"
       (demo "active")
     = Raise (parse_failure ValueError) (demo "active").
Proof.
  split.
  - set (s' := final (BankAccount.from_string float_of_digits
                        "  Bob Wilson ;750; active " initial_state)).
    assert (Hr : BankAccount.from_string float_of_digits
                   "  Bob Wilson ;750; active " initial_state
                 = Return 0%nat s') by reflexivity.
    destruct (proj1 (from_string_accepts float_of_digits
                       "  Bob Wilson ;750; active " initial_state s' 0) Hr)
      as (name & bt & st & b & a & _ & _ & _ & _ & _ & _ & Hh & _ & Hn
          & Hsp & _).
    exists name, a. split; [exact Hh|]. split; [exact Hn|].
    split; [|exact Hsp].
    simpl in Hh. injection Hh as <-. reflexivity.
  - apply (from_string_accepts float_of_digits "Wilson; Bob;750;active"
             (demo "active") (demo "active") 0).
    discriminate.
Defined.

(** ** What a call leaves alone *)

Lemma from_string_Raise (float : string -> option Q) (account_data : string)
    (s s' : state) (e : exn) :
  BankAccount.from_string float account_data s = Raise e s' -> s' = s.
Proof.
  unfold BankAccount.from_string, try_except.
  destruct (split ";" account_data) as [|n [|bt [|st [|? ?]]]];
    try (intros [= _ <-]; reflexivity).
  destruct (float bt) as [b|]; [|intros [= _ <-]; reflexivity].
  rewrite __init___eq.
  destruct (negb _); [intros [= _ <-]; reflexivity|].
  destruct (lt _ _); [intros [= _ <-]; reflexivity|].
  destruct (negb _); [intros [= _ <-]; reflexivity|discriminate].
Qed.

(** X17: a call that raises has done nothing, unless it is a [transfer]:
    after a constructor, [from_balance], [from_string], a setter, [deposit]
    or [withdraw] has raised, on arguments whose numbers convert, the store,
    the counter included, is exactly the store from before the call. *)
Theorem failure_without_effect (float : string -> option Q) (c : call)
    (s : state) (e : exn) :
  is_Transfer c = false -> arguments_convert c ->
  raised float c s = Some e ->
  exec float c s = s.
Proof.
  assert (Herr : forall A (o : outcome A), error_of o = Some e ->
                   exists s', o = Raise e s').
  { intros A [a s'|e' s']; simpl; [discriminate|].
    intros [= ->]. eauto. }
  destruct c; simpl; try discriminate; intros _ _ H;
    apply Herr in H as [s' H]; rewrite H; simpl.
  - rewrite __init___eq in H.
    destruct (negb _); [injection H as _ <-; reflexivity|].
    destruct (lt _ _); [injection H as _ <-; reflexivity|].
    destruct (negb _); [injection H as _ <-; reflexivity|discriminate].
  - unfold BankAccount.from_balance in H. rewrite __init___eq in H.
    destruct (negb _); [injection H as _ <-; reflexivity|].
    destruct (lt _ _); [injection H as _ <-; reflexivity|].
    destruct (negb _); [injection H as _ <-; reflexivity|discriminate].
  - eapply from_string_Raise. eassumption.
  - rewrite balance_setter_eq in H.
    destruct (negb _); [injection H as _ <-; reflexivity|].
    destruct (lt _ _); [injection H as _ <-; reflexivity|].
    destruct (heap s !! self); [discriminate|].
    injection H as _ <-. reflexivity.
  - rewrite status_setter_eq in H.
    destruct (negb _); [injection H as _ <-; reflexivity|].
    destruct (heap s !! self); [discriminate|].
    injection H as _ <-. reflexivity.
  - rewrite deposit_eq in H.
    destruct (heap s !! self); [|injection H as _ <-; reflexivity].
    destruct (negb _); [injection H as _ <-; reflexivity|].
    destruct (_ || _); [injection H as _ <-; reflexivity|discriminate].
  - rewrite withdraw_eq in H.
    destruct (heap s !! self); [|injection H as _ <-; reflexivity].
    destruct (negb _); [injection H as _ <-; reflexivity|].
    destruct (_ || _); [injection H as _ <-; reflexivity|].
    destruct (gt _ _); [injection H as _ <-; reflexivity|discriminate].
Qed.

Lemma failure_without_effect_witness :
  exec float_of_digits (Withdraw 1 (VInt 501)) (demo "active")
  = demo "active"
  /\ exec float_of_digits (FromString "Eve;abc;active") (demo "active")
     = demo "active".
Proof.
  split.
  - apply (failure_without_effect float_of_digits (Withdraw 1 (VInt 501))
             (demo "active") (InsufficientFundsError 500 501));
      [reflexivity|simpl; lia|reflexivity].
  - apply (failure_without_effect float_of_digits
             (FromString "Eve;abc;active") (demo "active")
             (parse_failure ValueError));
      [reflexivity|exact Logic.I|reflexivity].
Defined.

(** X18: a call touches only the accounts it is made on: [deposit],
    [withdraw] and the setters leave every other account exactly as it was,
    [transfer] every account that is neither its source nor its target, and
    the constructors every account there is, whether the call returns or
    raises. *)
Theorem other_accounts_untouched (float : string -> option Q) (c : call)
    (s : state) (l : loc) (a : account) :
  heap s !! l = Some a -> ~ involves c l ->
  heap (exec float c s) !! l = Some a.
Proof.
  intros Ha Hc.
  pose (I := fun s0 : state => heap s0 !! l = Some a).
  assert (Hread : forall self (f : account -> account),
             self <> l ->
             preserves I (x <- read self ;; write self (f x))).
  { intros self f Hne s0 H0. unfold bind, read, write.
    destruct (heap s0 !! self); [|exact H0]. simpl. unfold I.
    rewrite heap_store_ne by assumption. exact H0. }
  assert (Hinit : forall h b st, preserves I (BankAccount.__init__ h b st)).
  { intros h b st s0 H0.
    destruct (final___init__ h b st s0) as [->|(_ & _ & _ & ->)];
      [exact H0|].
    unfold I. simpl. apply lookup_app_l_Some. exact H0. }
  assert (Hdep : forall self v, self <> l ->
                   preserves I (BankAccount.deposit self v)).
  { intros self v Hne s0 H0. rewrite deposit_eq.
    destruct (heap s0 !! self); [|exact H0].
    destruct (negb _); [exact H0|]. destruct (_ || _); [exact H0|].
    simpl. unfold I. rewrite heap_store_ne by assumption. exact H0. }
  assert (Hwd : forall self v, self <> l ->
                  preserves I (BankAccount.withdraw self v)).
  { intros self v Hne s0 H0. rewrite withdraw_eq.
    destruct (heap s0 !! self); [|exact H0].
    destruct (negb _); [exact H0|]. destruct (_ || _); [exact H0|].
    destruct (gt _ _); [exact H0|].
    simpl. unfold I. rewrite heap_store_ne by assumption. exact H0. }
  change (I (exec float c s)). destruct c; simpl in *.
  - apply Hinit. exact Ha.
  - apply Hinit. exact Ha.
  - apply from_string_keeps; [exact Hinit|exact Ha].
  - unfold BankAccount.balance_setter.
    destruct (negb _); [exact Ha|]. destruct (lt _ _); [exact Ha|].
    apply (Hread self (fun x => with_balance x (num new_value)));
      [congruence|exact Ha].
  - unfold BankAccount.status_setter.
    destruct (negb _); [exact Ha|].
    apply (Hread self (fun x => with_status x (str_of v)));
      [congruence|exact Ha].
  - apply Hdep; [congruence|exact Ha].
  - apply Hwd; [congruence|exact Ha].
  - assert (Hself : self <> l) by (intros ->; apply Hc; left; reflexivity).
    revert Ha. fold (I s). unfold BankAccount.transfer.
    apply preserves_bind; [apply _ensure_active_keeps|]. intros _.
    destruct target_account as [| | | | |target];
      try apply preserves_raise.
    assert (Htarget : target <> l)
      by (intros ->; apply Hc; right; reflexivity).
    apply preserves_bind; [apply _validate_amount_keeps|]. intros _.
    apply preserves_bind; [apply Hwd; assumption|]. intros _.
    apply preserves_bind; [apply Hdep; assumption|]. intros _.
    apply preserves_bind; [apply getter_keeps|]. intros b.
    apply preserves_bind; [apply getter_keeps|]. intros n.
    apply preserves_bind;
      [apply (Hread self (fun x => with_appended x _)); assumption|].
    intros _.
    apply preserves_bind; [apply getter_keeps|]. intros b'.
    apply preserves_bind; [apply getter_keeps|]. intros n'.
    apply preserves_bind;
      [apply (Hread target (fun x => with_appended x _)); assumption|].
    intros _. apply preserves_ret.
Qed.

Lemma other_accounts_untouched_witness :
  heap (exec float_of_digits (Transfer 0 (VInt 10) (VAccount 0))
          (demo "active")) !! 1%nat = Some (jane "active")
  /\ heap (exec float_of_digits (SetBalance 1 (VInt 0)) (demo "active"))
       !! 0%nat = Some john.
Proof.
  split.
  - apply (other_accounts_untouched float_of_digits
             (Transfer 0 (VInt 10) (VAccount 0)) (demo "active") 1
             (jane "active")); [reflexivity|].
    intros [H|H]; discriminate H.
  - apply (other_accounts_untouched float_of_digits
             (SetBalance 1 (VInt 0)) (demo "active") 0 john);
      [reflexivity|].
    intros H. discriminate H.
Defined.

(** * The class on doubles, run *)

Ltac run_doubles :=
  repeat match goal with |- _ /\ _ => split end;
  vm_compute; reflexivity.



(** C5 (does not hold of the code): the constructor and [_validate_amount]
    let a NaN through, because [nan < 0] and [nan <= 0] are both false.
    [BankAccount("A", float("nan"))] returns an account whose balance is NaN,
    and [deposit(float("nan"))] on an account with the balance 500 returns
    and leaves the balance NaN: in both, [balance >= 0] is false. *)
Theorem nan_balance :
  exists s1 s2,
    Double.BankAccount.__init__ "A" (Double.VFloat PrimFloat.nan)
      (Double.VStr "active") Double.initial_state
    = Double.Return 0%nat s1
    /\ Double.balance_of s1 0 = Some PrimFloat.nan
    /\ Double.ge_zero PrimFloat.nan = false
    /\ (Double.ge_zero <$> Double.balance_of Double.demo 1) = Some true
    /\ Double.BankAccount.deposit 1 (Double.VFloat PrimFloat.nan) Double.demo
       = Double.Return PrimFloat.nan s2
    /\ Double.balance_of s2 1 = Some PrimFloat.nan.
Proof.
  do 2 eexists. split; [vm_compute; reflexivity|]. run_doubles.
Qed.

(** C6 (does not hold of the code): [deposit] and [withdraw] of
    [-(10 ** 5000)], an amount below zero, raise [ValueError], not
    [InvalidAmountError]: the exception class formats the amount with [!r],
    and an [int] of more than 4300 digits cannot be written.  The store is
    as it was. *)
Theorem huge_negative_amount :
  Double.le (Double.VInt (- 10 ^ 5000)) (Double.VInt 0) = true
  /\ Double.BankAccount.deposit 0 (Double.VInt (- 10 ^ 5000)) Double.demo
     = Double.Raise Double.ValueError Double.demo
  /\ Double.BankAccount.withdraw 0 (Double.VInt (- 10 ^ 5000)) Double.demo
     = Double.Raise Double.ValueError Double.demo
  /\ Double.is_BankAccountError Double.ValueError = false.
Proof. run_doubles. Qed.

(** C9 (does not hold of the code): the constructor increments the counter
    before it computes [float(initial_balance)].  In a fresh process
    [BankAccount("Big", 10 ** 400)] raises [OverflowError] with the counter
    at 1001 and no account created; the first account created after that
    has the number 1002, not 1001. *)
Theorem counter_consumed_by_failed_construction :
  exists s1 s2,
    Double.BankAccount.__init__ "Big" (Double.VInt (10 ^ 400))
      (Double.VStr "active") Double.initial_state
    = Double.Raise Double.OverflowError s1
    /\ Double.heap s1 = []
    /\ Double._account_counter s1 = 1001
    /\ Double.BankAccount.__init__ "John Doe" (Double.VInt 1000)
         (Double.VStr "active") s1
       = Double.Return 0%nat s2
    /\ length (Double.heap s2) = 1%nat
    /\ Double.number_of s2 0 = Some 1002.
Proof.
  do 2 eexists. split; [vm_compute; reflexivity|]. run_doubles.
Qed.
